(** * Payment bridge: webhook handler and payments listing

    A shallow embedding of the two route modules of the bridge back end:
    the Splynx payment webhook ([POST /webhook/payment]) and the read API
    ([GET /api/payments] and its siblings), with the properties the
    specification states about them.

    JavaScript values are embedded as a small JSON value type, the
    handlers as computations in a state-and-exception monad over the
    persistent store, and the persistence gateway and the UISP adapter,
    whose modules are not part of the two route files, as definitions that
    follow the specification's description of them. *)

From Stdlib Require Import ZArith List String Ascii Bool Lia Arith.
From Stdlib Require Import DecimalString DecimalZ.
Import ListNotations.
Local Open Scope string_scope.
Local Open Scope Z_scope.

Set Warnings "-register-all".

(* ================================================================== *)
(** * JavaScript values *)
(* ================================================================== *)

Module JS.

(** A parsed JSON document, plus [undefined].  [VNum] carries the
    integers; fractional JSON numbers are outside the model.  The field
    list of [VObj] denotes the object in which the first binding of a key
    is the one that counts, so every list denotes an object. *)
Inductive value : Type :=
| VUndefined
| VNull
| VBool (b : bool)
| VNum (n : Z)
| VStr (s : string)
| VArr (items : list value)
| VObj (fields : list (string * value)).

Fixpoint value_eq_dec (a b : value) {struct a} : {a = b} + {a <> b}.
Proof.
  decide equality.
  - apply Bool.bool_dec.
  - apply Z.eq_dec.
  - apply string_dec.
  - apply (list_eq_dec value_eq_dec).
  - apply list_eq_dec. decide equality. apply string_dec.
Defined.

(** ToBoolean: [undefined], [null], [false], [0] and the empty string are
    falsy, every other value (every array and object too) is truthy. *)
Definition truthy (v : value) : bool :=
  match v with
  | VUndefined | VNull => false
  | VBool b => b
  | VNum n => negb (n =? 0)
  | VStr s => negb (String.eqb s "")
  | VArr _ | VObj _ => true
  end.

Definition falsy (v : value) : bool := negb (truthy v).

(** [a || b] and [a && b] on values. *)
Definition or_else (a b : value) : value := if truthy a then a else b.
Definition and_then (a b : value) : value := if truthy a then b else a.

(** Own-property lookup in a field list. *)
Fixpoint lookup (k : string) (fs : list (string * value)) : value :=
  match fs with
  | [] => VUndefined
  | (k', v) :: rest => if String.eqb k k' then v else lookup k rest
  end.

(** [v.k] for a value that is neither [undefined] nor [null].  Only plain
    objects carry the keys the handlers read (none of them is [length] or
    an index), so every other value answers [undefined]. *)
Definition get (v : value) (k : string) : value :=
  match v with
  | VObj fs => lookup k fs
  | _ => VUndefined
  end.

(** [o.k = x]: replaces the binding of [k] where it stands, or appends a
    new one. *)
Fixpoint assign (k : string) (x : value) (fs : list (string * value))
  : list (string * value) :=
  match fs with
  | [] => [(k, x)]
  | (k', v) :: rest =>
      if String.eqb k k' then (k, x) :: rest else (k', v) :: assign k x rest
  end.

Definition set (v : value) (k : string) (x : value) : value :=
  match v with
  | VObj fs => VObj (assign k x fs)
  | _ => v
  end.

(** [Object.keys(v)] for a value that is neither [undefined] nor [null]:
    the distinct keys of an object, the indices of an array or of a string
    (one per character of the model's strings, which is the JavaScript
    length for ASCII text), nothing for a number or a boolean.  The
    handlers use the number of keys only, and the order is not kept. *)
Definition index_keys (n : nat) : list string :=
  map (fun i => NilZero.string_of_uint (Nat.to_uint i)) (seq 0 n).

Definition keys (v : value) : list string :=
  match v with
  | VObj fs => nodup string_dec (map fst fs)
  | VArr items => index_keys (List.length items)
  | VStr s => index_keys (String.length s)
  | _ => []
  end.

(** Number.prototype.toString for an integer: decimal digits, with a
    leading minus sign for a negative one (what JavaScript prints for an
    integer below 10^21 in absolute value). *)
Definition number_to_string (n : Z) : string :=
  NilZero.string_of_int (Z.to_int n).

(** ToString, as a template literal and [parseInt] apply it. *)
Fixpoint to_string (v : value) : string :=
  match v with
  | VUndefined => "undefined"
  | VNull => "null"
  | VBool true => "true"
  | VBool false => "false"
  | VNum n => number_to_string n
  | VStr s => s
  | VArr items =>
      (fix join (l : list value) : string :=
         match l with
         | [] => ""
         | x :: rest =>
             let sx := match x with
                       | VUndefined | VNull => ""
                       | _ => to_string x
                       end in
             match rest with
             | [] => sx
             | _ :: _ => sx ++ "," ++ join rest
             end
         end) items
  | VObj _ => "[object Object]"
  end.

End JS.
Import JS.

(** [parseInt(s)] with no radix argument: leading white space is skipped,
    then an optional sign, then a [0x] prefix selects base sixteen; the
    longest run of digits of the base is read and the rest of the string
    is ignored.  [None] stands for [NaN].  The result is the exact
    integer, without the rounding of a double beyond 2^53, and only the
    one-byte white space characters are recognised. *)
Definition is_white_space (c : ascii) : bool :=
  match nat_of_ascii c with
  | 9%nat | 10%nat | 11%nat | 12%nat | 13%nat | 32%nat => true
  | _ => false
  end.

Fixpoint skip_white_space (s : string) : string :=
  match s with
  | String c rest => if is_white_space c then skip_white_space rest else s
  | EmptyString => s
  end.

Definition digit_value (c : ascii) : option Z :=
  let n := Z.of_nat (nat_of_ascii c) in
  if (48 <=? n) && (n <=? 57) then Some (n - 48)
  else if (97 <=? n) && (n <=? 102) then Some (n - 87)
  else if (65 <=? n) && (n <=? 70) then Some (n - 55)
  else None.

Fixpoint read_digits (radix : Z) (acc : option Z) (s : string) : option Z :=
  match s with
  | EmptyString => acc
  | String c rest =>
      match digit_value c with
      | Some d =>
          if d <? radix
          then read_digits radix
                 (Some (radix * match acc with Some a => a | None => 0 end + d))
                 rest
          else acc
      | None => acc
      end
  end.

Definition parseInt (s : string) : option Z :=
  let s := skip_white_space s in
  let '(negative, s) :=
    match s with
    | String "-" rest => (true, rest)
    | String "+" rest => (false, rest)
    | _ => (false, s)
    end in
  let '(radix, s) :=
    match s with
    | String "0" (String "x" rest) | String "0" (String "X" rest) => (16, rest)
    | _ => (10, s)
    end in
  option_map (fun n => if negative then - n else n) (read_digits radix None s).

(** [parseInt(v) || d]: [NaN] and [0] are falsy and give the default. *)
Definition parseInt_or (v : value) (d : Z) : Z :=
  match parseInt (to_string v) with
  | Some n => if n =? 0 then d else n
  | None => d
  end.

(* ================================================================== *)
(** * Computations: state and exceptions *)
(* ================================================================== *)

(** An [await]ed call either returns or throws an [Error] with a message;
    what it did to the state before throwing stays done. *)
Inductive result (A : Type) : Type :=
| Returned (a : A)
| Thrown (message : string).
Arguments Returned {A} a.
Arguments Thrown {A} message.

Definition M (S A : Type) : Type := S -> result A * S.

Definition ret {S A} (a : A) : M S A := fun s => (Returned a, s).

Definition throw {S A} (message : string) : M S A :=
  fun s => (Thrown message, s).

Definition bind {S A B} (m : M S A) (k : A -> M S B) : M S B :=
  fun s =>
    match m s with
    | (Returned a, s') => k a s'
    | (Thrown e, s') => (Thrown e, s')
    end.

(** [try { m } catch (error) { h error }] *)
Definition try_catch {S A} (m : M S A) (h : string -> M S A) : M S A :=
  fun s =>
    match m s with
    | (Returned a, s') => (Returned a, s')
    | (Thrown e, s') => h e s'
    end.

Declare Scope js_scope.
Delimit Scope js_scope with js.
Notation "x <- m ;; k" := (bind m (fun x => k))
  (at level 61, m at next level, right associativity) : js_scope.
Notation "m ;; k" := (bind m (fun _ => k))
  (at level 61, right associativity) : js_scope.
Local Open Scope js_scope.

(* ================================================================== *)
(** * The store and what a request observes of the outside *)
(* ================================================================== *)

(** Modelled from the spec: the status column of a payment record, which
    utils/database declares; one of pending, success and failed. *)
Inductive payment_status : Type := Pending | Success | Failed.

Definition status_name (st : payment_status) : string :=
  match st with
  | Pending => "pending"
  | Success => "success"
  | Failed => "failed"
  end.

(** The object the webhook handler hands to [insertPayment]. *)
Record paymentRecord : Type := mkPaymentRecord {
  transaction_id : value;
  client_id : value;
  amount : value;
  currency_code : value;
  payment_type : value;
  payment_method : value;
  created_at : value
}.

(** The stored response: [JSON.stringify(uispResponse)] is kept symbolic,
    as the value it is the text of. *)
Inductive payload : Type :=
| NoPayload
| JsonText (v : value).

(** Modelled from the spec: a row of the payments table of
    utils/database: the record handed in, its status, the response stored
    on success and the error message stored on failure. *)
Record payment : Type := mkPayment {
  record : paymentRecord;
  status : payment_status;
  response_payload : payload;
  error_message : option string
}.

(** Modelled from the spec: an entry of the webhook log of
    utils/database: raw body, headers, source address and validation
    outcome. *)
Record webhook_entry : Type := mkWebhookEntry {
  logged_body : value;
  logged_headers : value;
  logged_ip : value;
  logged_validated : bool
}.

(** The calls on the persistence gateway ([dbHelpers]) that the two
    handlers make. *)
Inductive gateway_call : Type :=
| LogWebhook (entry : webhook_entry)
| GetPaymentByTransactionId (txid : value)
| InsertPayment (r : paymentRecord)
| UpdatePaymentStatus (txid : value) (st : payment_status)
    (response : payload) (error : option string)
| GetAllPayments (limit offset : Z).

(** What a request did, oldest first: each gateway call with whether it
    returned, each post to UISP with whether it returned, and each client
    resync started in the background. *)
Inductive event : Type :=
| Gateway (c : gateway_call) (returned : bool)
| UispPost (paymentData : value) (returned : bool)
| ClientSync (clientId : option Z).

Record store : Type := mkStore {
  payments : list payment;
  webhook_log : list webhook_entry;
  history : list event
}.

Definition empty_store : store := mkStore [] [] [].

(** What one request meets outside the handler: the clock readings of its
    [Date.now()] and [new Date()] calls, whether the storage refuses a
    gateway call (and with which error message), and what UISP answers to
    a posted payment. *)
Record env : Type := mkEnv {
  start_time : Z;
  txid_time : Z;
  created_time : string;
  end_time : Z;
  storage_fault : gateway_call -> option string;
  uisp : value -> result value
}.

Definition note (ev : event) (s : store) : store :=
  mkStore (payments s) (webhook_log s) (history s ++ [ev]).

Definition append_log (entry : webhook_entry) (s : store) : store :=
  mkStore (payments s) (webhook_log s ++ [entry]) (history s).

Definition with_payments (rows : list payment) (s : store) : store :=
  mkStore rows (webhook_log s) (history s).

Definition txid_of (p : payment) : value := transaction_id (record p).

(** Modelled from the spec: a row is looked up by its transaction id,
    the value the handler stored being compared with the value it asks
    for. *)
Definition has_txid (txid : value) (p : payment) : bool :=
  if value_eq_dec (txid_of p) txid then true else false.

(* ------------------------------------------------------------------ *)
(** ** Persistence gateway *)
(* ------------------------------------------------------------------ *)

Module dbHelpers.

(** Modelled from the spec: utils/database is not among the sources.  A
    gateway call can fail because the storage is unavailable (the spec's
    PersistenceError): the call is then noted as failed and throws;
    otherwise [run] is applied to the store and the call is noted as its
    result tells. *)
Definition call {A} (e : env) (c : gateway_call)
    (run : store -> result A * store) : M store A :=
  fun s =>
    match storage_fault e c with
    | Some message => (Thrown message, note (Gateway c false) s)
    | None =>
        match run s with
        | (Returned a, s') => (Returned a, note (Gateway c true) s')
        | (Thrown message, s') => (Thrown message, note (Gateway c false) s')
        end
    end.

(** Modelled from the spec: [logWebhook] of utils/database is not among
    the sources; the webhook log is append-only and holds the raw body,
    the headers, the source address and the validation outcome. *)
Definition logWebhook (e : env) (entry : webhook_entry) : M store unit :=
  call e (LogWebhook entry)
    (fun s => (Returned tt, append_log entry s)).

(** Modelled from the spec: [getPaymentByTransactionId] of utils/database
    is not among the sources; it looks a payment up by transaction id and
    answers nothing when there is none. *)
Definition getPaymentByTransactionId (e : env) (txid : value)
  : M store (option payment) :=
  call e (GetPaymentByTransactionId txid)
    (fun s => (Returned (find (has_txid txid) (payments s)), s)).

(** Modelled from the spec: the row [insertPayment] of utils/database
    adds for a record, with status pending. *)
Definition pending (r : paymentRecord) : payment :=
  mkPayment r Pending NoPayload None.

(** Modelled from the spec: the message of the error [insertPayment] of
    utils/database throws on a duplicate transaction id; the spec does not
    give its text. *)
Definition duplicate_message : string :=
  "UNIQUE constraint failed: payments.transaction_id".

(** Modelled from the spec: [insertPayment] of utils/database is not among
    the sources; it fails on a duplicate transaction id and otherwise adds
    the record with status pending, no response and no error. *)
Definition insertPayment (e : env) (r : paymentRecord) : M store unit :=
  call e (InsertPayment r)
    (fun s =>
       if existsb (has_txid (transaction_id r)) (payments s)
       then (Thrown duplicate_message, s)
       else (Returned tt, with_payments (payments s ++ [pending r]) s)).

(** Modelled from the spec: what [updatePaymentStatus] of utils/database
    does to one row. *)
Definition update_row (txid : value) (st : payment_status)
    (response : payload) (error : option string) (p : payment) : payment :=
  if has_txid txid p then mkPayment (record p) st response error else p.

(** Modelled from the spec: [updatePaymentStatus] of utils/database is not
    among the sources; it takes a transaction id, the new status and the
    optional response and error, and sets them on the record of that id. *)
Definition updatePaymentStatus (e : env) (txid : value)
    (st : payment_status) (response : payload) (error : option string)
  : M store unit :=
  call e (UpdatePaymentStatus txid st response error)
    (fun s =>
       (Returned tt,
        with_payments (map (update_row txid st response error) (payments s))
          s)).

(** Modelled from the spec: [getAllPayments] of utils/database is not
    among the sources; it lists payments with offset and limit: at most
    [limit] rows, starting at row [offset] of the table.  The spec does
    not say what a negative argument gives; here it counts as zero. *)
Definition getAllPayments (e : env) (limit offset : Z)
  : M store (list payment) :=
  call e (GetAllPayments limit offset)
    (fun s =>
       (Returned (firstn (Z.to_nat limit)
                    (skipn (Z.to_nat offset) (payments s))), s)).

End dbHelpers.

(* ------------------------------------------------------------------ *)
(** ** UISP adapter *)
(* ------------------------------------------------------------------ *)

(** Modelled from the spec: [postPaymentToUISP] of services/uispService is
    not among the sources; it is a single outbound call that returns the
    remote answer or throws an error carrying the remote detail. *)
Definition postPaymentToUISP (e : env) (paymentData : value)
  : M store value :=
  fun s =>
    match uisp e paymentData with
    | Returned response =>
        (Returned response, note (UispPost paymentData true) s)
    | Thrown message => (Thrown message, note (UispPost paymentData false) s)
    end.

(** Modelled from the spec: [syncSingleClient] of services/uispService is
    not among the sources; the webhook handler starts it and does not
    wait: whatever it does, and the [updateClientLastPayment] chained to
    it, happens after the response and its failure is only logged. *)
Definition syncSingleClient (clientId : option Z) : M store unit :=
  fun s => (Returned tt, note (ClientSync clientId) s).

(* ================================================================== *)
(** * POST /webhook/payment *)
(* ================================================================== *)

Record request : Type := mkRequest {
  body : value;
  headers : value;
  clientIp : value;
  webhookValidated : bool
}.

(** [res.status(code).json(json)] *)
Record response : Type := mkResponse {
  code : Z;
  json : value
}.

Definition lift {S A} (r : result A) : M S A := fun s => (r, s).

(** [v.k] where [v] may be [undefined] or [null]: reading a property of
    either throws a TypeError. *)
Definition member (v : value) (k : string) : result value :=
  match v with
  | VUndefined =>
      Thrown ("Cannot read properties of undefined (reading '" ++ k ++ "')")
  | VNull =>
      Thrown ("Cannot read properties of null (reading '" ++ k ++ "')")
  | _ => Returned (get v k)
  end.

(** [v?.k] *)
Definition optional_member (v : value) (k : string) : value :=
  match v with
  | VUndefined | VNull => VUndefined
  | _ => get v k
  end.

Definition entry_of (req : request) : webhook_entry :=
  mkWebhookEntry (body req) (headers req) (clientIp req)
    (webhookValidated req).

Module webhook.

(** The three payload shapes: [body.data.attributes], [body.payment], or
    the body itself. *)
Definition extract_paymentData (body : value) : result value :=
  match member body "data" with
  | Thrown message => Thrown message
  | Returned data =>
      if truthy (and_then data (get data "attributes"))
      then Returned (get data "attributes")
      else if truthy (get body "payment")
      then Returned (get body "payment")
      else Returned body
  end.

(** The two conditions of the extraction, for a body that is an object. *)
Definition has_data_attributes (body : value) : bool :=
  truthy (and_then (get body "data") (get (get body "data") "attributes")).

Definition has_payment (body : value) : bool :=
  truthy (get body "payment").

(** [!paymentData || Object.keys(paymentData).length === 0] *)
Definition is_ping (paymentData : value) : bool :=
  falsy paymentData || (List.length (keys paymentData) =? 0)%nat.

(** [customer_id] stands in for a [client_id] that is not there. *)
Definition alias_customer_id (paymentData : value) : value :=
  if truthy (get paymentData "customer_id")
     && negb (truthy (get paymentData "client_id"))
  then set paymentData "client_id" (get paymentData "customer_id")
  else paymentData.

Definition requiredFields : list string := ["client_id"; "amount"].

Definition missingFields (paymentData : value) : list string :=
  filter (fun field => negb (truthy (get paymentData field))) requiredFields.

Definition synthesized_id (now : Z) (clientId : value) : string :=
  "SPLYNX-" ++ number_to_string now ++ "-" ++ to_string clientId.

Definition with_transaction_id (e : env) (paymentData : value) : value :=
  if negb (truthy (get paymentData "transaction_id"))
  then set paymentData "transaction_id"
         (VStr (synthesized_id (txid_time e) (get paymentData "client_id")))
  else paymentData.

Definition paymentRecord_of (e : env) (paymentData : value) : paymentRecord :=
  {| transaction_id := get paymentData "transaction_id";
     client_id := get paymentData "client_id";
     amount := get paymentData "amount";
     currency_code := or_else (get paymentData "currency_code") (VStr "KES");
     payment_type := get paymentData "payment_type";
     payment_method :=
       or_else (get paymentData "payment_method")
               (get paymentData "payment_type");
     created_at :=
       or_else (get paymentData "created_at") (VStr (created_time e)) |}.

Definition ping_response : response :=
  mkResponse 200
    (VObj [("success", VBool true);
           ("message",
            VStr "Webhook endpoint is active and ready to receive payments")]).

Definition probe_response : response :=
  mkResponse 200
    (VObj [("success", VBool true);
           ("message",
            VStr "Webhook endpoint is active. Required fields for actual payments: client_id, amount")]).

Definition missing_response (missing : list string) : response :=
  mkResponse 400
    (VObj [("error", VStr "Missing required fields");
           ("missingFields", VArr (map VStr missing))]).

Definition duplicate_response (txid : value) (existing : payment) : response :=
  mkResponse 200
    (VObj [("message", VStr "Payment already processed");
           ("transactionId", txid);
           ("status", VStr (status_name (status existing)))]).

Definition duration (e : env) : value :=
  VStr (number_to_string (end_time e - start_time e) ++ "ms").

Definition posted_response (e : env) (txid uispResponse : value) : response :=
  mkResponse 200
    (VObj [("message", VStr "Payment successfully posted to UISP");
           ("transactionId", txid);
           ("uispPaymentId", optional_member uispResponse "id");
           ("duration", duration e)]).

Definition post_failed_response (txid : value) (message : string) : response :=
  mkResponse 500
    (VObj [("error", VStr "Failed to post payment to UISP");
           ("transactionId", txid);
           ("message", VStr message)]).

Definition internal_error_response (message : string) : response :=
  mkResponse 500
    (VObj [("error", VStr "Internal server error");
           ("message", VStr message)]).

(** The inner [try]: post to UISP, mark the payment, start the resync. *)
Definition post_and_finalize (e : env) (paymentData : value)
  : M store response :=
  let txid := get paymentData "transaction_id" in
  try_catch
    (uispResponse <- postPaymentToUISP e paymentData ;;
     dbHelpers.updatePaymentStatus e txid Success (JsonText uispResponse) None ;;
     syncSingleClient (parseInt (to_string (get paymentData "client_id"))) ;;
     ret (posted_response e txid uispResponse))
    (fun uispError =>
       dbHelpers.updatePaymentStatus e txid Failed NoPayload (Some uispError) ;;
       ret (post_failed_response txid uispError)).

(** From the idempotency check on, for a payload that has its required
    fields and its transaction id. *)
Definition process (e : env) (paymentData : value) : M store response :=
  let txid := get paymentData "transaction_id" in
  existingPayment <- dbHelpers.getPaymentByTransactionId e txid ;;
  match existingPayment with
  | Some existing => ret (duplicate_response txid existing)
  | None =>
      dbHelpers.insertPayment e (paymentRecord_of e paymentData) ;;
      post_and_finalize e paymentData
  end.

(** What the handler does with the extracted payload. *)
Definition dispatch (e : env) (paymentData : value) : M store response :=
  if is_ping paymentData then ret ping_response
  else
    let paymentData := alias_customer_id paymentData in
    let missing := missingFields paymentData in
    if (0 <? List.length missing)%nat then
      if (List.length (keys paymentData) <? 3)%nat
      then ret probe_response
      else ret (missing_response missing)
    else process e (with_transaction_id e paymentData).

Definition handler (e : env) (req : request) : M store response :=
  try_catch
    (dbHelpers.logWebhook e (entry_of req) ;;
     paymentData <- lift (extract_paymentData (body req)) ;;
     dispatch e paymentData)
    (fun error => ret (internal_error_response error)).

End webhook.

(* ================================================================== *)
(** * GET /api/payments *)
(* ================================================================== *)

Module api.

(** [req.query]: a parameter that is not given is [undefined]. *)
Record query : Type := mkQuery {
  limit : value;
  offset : value
}.

Section Listing.

(** How the gateway presents a stored row as an object. *)
Variable row_json : payment -> value.

Definition listing_response (limit offset : Z) (rows : list payment)
  : response :=
  mkResponse 200
    (VObj [("success", VBool true);
           ("data", VArr (map row_json rows));
           ("pagination",
            VObj [("limit", VNum limit);
                  ("offset", VNum offset);
                  ("count", VNum (Z.of_nat (List.length rows)))])]).

Definition listing_failed_response (message : string) : response :=
  mkResponse 500
    (VObj [("success", VBool false);
           ("error", VStr "Failed to fetch payments");
           ("message", VStr message)]).

Definition get_payments (e : env) (q : query) : M store response :=
  try_catch
    (let limit := parseInt_or (limit q) 50 in
     let offset := parseInt_or (offset q) 0 in
     payments <- dbHelpers.getAllPayments e limit offset ;;
     ret (listing_response limit offset payments))
    (fun error => ret (listing_failed_response error)).

End Listing.

(** ** GET /api/payments/:transactionId *)

Section Single.

(** How the gateway presents a stored row as an object. *)
Variable row_json : payment -> value.

Definition not_found_response : response :=
  mkResponse 404
    (VObj [("success", VBool false);
           ("error", VStr "Payment not found")]).

Definition found_response (p : payment) : response :=
  mkResponse 200
    (VObj [("success", VBool true);
           ("data", row_json p)]).

Definition fetch_failed_response (message : string) : response :=
  mkResponse 500
    (VObj [("success", VBool false);
           ("error", VStr "Failed to fetch payment");
           ("message", VStr message)]).

(** [req.params.transactionId] is the text of the path segment. *)
Definition get_payment (e : env) (transactionId : string)
  : M store response :=
  try_catch
    (payment <- dbHelpers.getPaymentByTransactionId e (VStr transactionId) ;;
     match payment with
     | None => ret not_found_response
     | Some p => ret (found_response p)
     end)
    (fun error => ret (fetch_failed_response error)).

End Single.

(** ** GET /api/clients *)

Module clients.

(** [req.query]: a parameter that is not given is [undefined]. *)
Record query : Type := mkQuery {
  limit : value;
  offset : value;
  search : value;
  is_active : value;
  is_suspended : value
}.

(** The [filters] object: a key that was not set is [None]. *)
Record filters : Type := mkFilters {
  filter_is_active : option bool;
  filter_is_suspended : option bool
}.

(** [v === s] for a string literal [s]. *)
Definition is_literal (v : value) (s : string) : bool :=
  match v with
  | VStr s' => String.eqb s' s
  | _ => false
  end.

(** [v === 'true' || v === '1'] *)
Definition flag (v : value) : bool :=
  is_literal v "true" || is_literal v "1".

(** The key is set when the parameter [!== undefined]. *)
Definition filter_of (v : value) : option bool :=
  match v with
  | VUndefined => None
  | _ => Some (flag v)
  end.

Definition filters_of (q : query) : filters :=
  mkFilters (filter_of (is_active q)) (filter_of (is_suspended q)).

Definition clients_response (limit offset : Z) (clients : list value)
  : response :=
  mkResponse 200
    (VObj [("success", VBool true);
           ("data", VArr clients);
           ("pagination",
            VObj [("limit", VNum limit);
                  ("offset", VNum offset);
                  ("count", VNum (Z.of_nat (List.length clients)))])]).

Definition clients_failed_response (message : string) : response :=
  mkResponse 500
    (VObj [("success", VBool false);
           ("error", VStr "Failed to fetch clients");
           ("message", VStr message)]).

Section Clients.

(** The two gateway calls of this handler, [dbHelpers.searchClients] and
    [dbHelpers.getAllClients] of utils/database, which is not among the
    sources: each answers a list of client rows or throws. *)
Variable searchClients : value -> result (list value).
Variable getAllClients : Z -> Z -> filters -> result (list value).

Definition get_clients (q : query) : response :=
  let limit := parseInt_or (limit q) 100 in
  let offset := parseInt_or (offset q) 0 in
  let search := search q in
  match (if truthy search then searchClients search
         else getAllClients limit offset (filters_of q)) with
  | Returned clients => clients_response limit offset clients
  | Thrown error => clients_failed_response error
  end.

End Clients.

End clients.

End api.

(* ================================================================== *)
(** * Notions the statements use *)
(* ================================================================== *)

(** The store once the webhook log has taken the request. *)
Definition logged (req : request) (s : store) : store :=
  note (Gateway (LogWebhook (entry_of req)) true)
    (append_log (entry_of req) s).

(** The payload a body is processed as, if it gets past the ping check
    and the required-field check: aliased, and with its transaction id. *)
Definition accepted (e : env) (b : value) : option value :=
  match webhook.extract_paymentData b with
  | Returned paymentData =>
      if webhook.is_ping paymentData then None
      else
        let paymentData := webhook.alias_customer_id paymentData in
        if (0 <? List.length (webhook.missingFields paymentData))%nat
        then None
        else Some (webhook.with_transaction_id e paymentData)
  | Thrown _ => None
  end.

(** The transaction ids of the payments posted to UISP in a history. *)
Fixpoint posted_ids (h : list event) : list value :=
  match h with
  | [] => []
  | UispPost paymentData _ :: rest =>
      get paymentData "transaction_id" :: posted_ids rest
  | _ :: rest => posted_ids rest
  end.

Definition stored_ids (s : store) : list value :=
  map txid_of (payments s).

(** A sequence of deliveries, each with the environment it meets. *)
Definition deliver (s : store) (d : env * request) : store :=
  snd (webhook.handler (fst d) (snd d) s).

Definition deliveries (ds : list (env * request)) (s : store) : store :=
  fold_left deliver ds s.

(** Whether a response body carries a key. *)
Definition has_key (v : value) (k : string) : bool :=
  match get v k with
  | VUndefined => false
  | _ => true
  end.

Definition is_string (v : value) : bool :=
  match v with
  | VStr _ => true
  | _ => false
  end.

Definition is_boolean (v : value) : bool :=
  match v with
  | VBool _ => true
  | _ => false
  end.

(** Client ids of one kind: two strings, or two numbers. *)
Definition same_kind (a b : value) : bool :=
  match a, b with
  | VStr _, VStr _ => true
  | VNum _, VNum _ => true
  | _, _ => false
  end.

(** A string in which no hyphen occurs. *)
Fixpoint dashless (s : string) : Prop :=
  match s with
  | EmptyString => True
  | String c rest => c <> "-"%char /\ dashless rest
  end.

(** A store in which no transaction id is stored twice or posted twice,
    and every posted id is stored. *)
Definition consistent (s : store) : Prop :=
  NoDup (stored_ids s) /\
  NoDup (posted_ids (history s)) /\
  incl (posted_ids (history s)) (stored_ids s).

(** The store after a status update that the storage took. *)
Definition marked (txid : value) (st : payment_status) (response : payload)
    (error : option string) (s : store) : store :=
  note (Gateway (UpdatePaymentStatus txid st response error) true)
    (with_payments (map (dbHelpers.update_row txid st response error)
                      (payments s)) s).

(** The store after a status update that the storage refused. *)
Definition unmarked (txid : value) (st : payment_status) (response : payload)
    (error : option string) (s : store) : store :=
  note (Gateway (UpdatePaymentStatus txid st response error) false) s.

(** The store at which the post to UISP starts: the request is logged,
    the lookup found nothing and the pending record is in. *)
Definition inserted (e : env) (req : request) (paymentData : value)
    (s : store) : store :=
  let r := webhook.paymentRecord_of e paymentData in
  let s1 := note (Gateway (GetPaymentByTransactionId
                             (get paymentData "transaction_id")) true)
              (logged req s) in
  note (Gateway (InsertPayment r) true)
    (with_payments (payments s1 ++ [dbHelpers.pending r]) s1).

(** Every way a request can go, with the response and the store it ends
    in.  [paymentData] is the accepted payload, [txid] its id. *)
Inductive run (e : env) (req : request) (s : store)
  : result response * store -> Prop :=
| run_log_refused (message : string) :
    storage_fault e (LogWebhook (entry_of req)) = Some message ->
    run e req s
      (Returned (webhook.internal_error_response message),
       note (Gateway (LogWebhook (entry_of req)) false) s)
| run_type_error (message : string) :
    storage_fault e (LogWebhook (entry_of req)) = None ->
    webhook.extract_paymentData (body req) = Thrown message ->
    run e req s
      (Returned (webhook.internal_error_response message), logged req s)
| run_unaccepted (extracted : value) (r : response) :
    storage_fault e (LogWebhook (entry_of req)) = None ->
    webhook.extract_paymentData (body req) = Returned extracted ->
    accepted e (body req) = None ->
    r = webhook.ping_response \/ r = webhook.probe_response \/
    r = webhook.missing_response
          (webhook.missingFields (webhook.alias_customer_id extracted)) ->
    run e req s (Returned r, logged req s)
| run_lookup_refused (paymentData : value) (message : string) :
    storage_fault e (LogWebhook (entry_of req)) = None ->
    accepted e (body req) = Some paymentData ->
    storage_fault e
      (GetPaymentByTransactionId (get paymentData "transaction_id"))
    = Some message ->
    run e req s
      (Returned (webhook.internal_error_response message),
       note (Gateway (GetPaymentByTransactionId
                        (get paymentData "transaction_id")) false)
         (logged req s))
| run_duplicate (paymentData : value) (existing : payment) :
    storage_fault e (LogWebhook (entry_of req)) = None ->
    accepted e (body req) = Some paymentData ->
    storage_fault e
      (GetPaymentByTransactionId (get paymentData "transaction_id"))
    = None ->
    find (has_txid (get paymentData "transaction_id")) (payments s)
    = Some existing ->
    run e req s
      (Returned (webhook.duplicate_response
                   (get paymentData "transaction_id") existing),
       note (Gateway (GetPaymentByTransactionId
                        (get paymentData "transaction_id")) true)
         (logged req s))
| run_insert_refused (paymentData : value) (message : string) :
    storage_fault e (LogWebhook (entry_of req)) = None ->
    accepted e (body req) = Some paymentData ->
    storage_fault e
      (GetPaymentByTransactionId (get paymentData "transaction_id"))
    = None ->
    find (has_txid (get paymentData "transaction_id")) (payments s) = None ->
    storage_fault e (InsertPayment (webhook.paymentRecord_of e paymentData))
    = Some message ->
    run e req s
      (Returned (webhook.internal_error_response message),
       note (Gateway (InsertPayment
                        (webhook.paymentRecord_of e paymentData)) false)
         (note (Gateway (GetPaymentByTransactionId
                           (get paymentData "transaction_id")) true)
            (logged req s)))
| run_processed (paymentData : value) :
    storage_fault e (LogWebhook (entry_of req)) = None ->
    accepted e (body req) = Some paymentData ->
    storage_fault e
      (GetPaymentByTransactionId (get paymentData "transaction_id"))
    = None ->
    find (has_txid (get paymentData "transaction_id")) (payments s) = None ->
    storage_fault e (InsertPayment (webhook.paymentRecord_of e paymentData))
    = None ->
    run e req s
      (try_catch (webhook.post_and_finalize e paymentData)
         (fun error => ret (webhook.internal_error_response error))
         (inserted e req paymentData s)).

(** Every way the inner [try] can go, from the store [s] it starts at. *)
Inductive finalization (e : env) (paymentData : value) (s : store)
  : result response * store -> Prop :=
| posted_marked (uispResponse : value) :
    let txid := get paymentData "transaction_id" in
    uisp e paymentData = Returned uispResponse ->
    storage_fault e
      (UpdatePaymentStatus txid Success (JsonText uispResponse) None)
    = None ->
    finalization e paymentData s
      (Returned (webhook.posted_response e txid uispResponse),
       note (ClientSync (parseInt (to_string (get paymentData "client_id"))))
         (marked txid Success (JsonText uispResponse) None
            (note (UispPost paymentData true) s)))
| posted_marked_failed (uispResponse : value) (message : string) :
    let txid := get paymentData "transaction_id" in
    uisp e paymentData = Returned uispResponse ->
    storage_fault e
      (UpdatePaymentStatus txid Success (JsonText uispResponse) None)
    = Some message ->
    storage_fault e
      (UpdatePaymentStatus txid Failed NoPayload (Some message))
    = None ->
    finalization e paymentData s
      (Returned (webhook.post_failed_response txid message),
       marked txid Failed NoPayload (Some message)
         (unmarked txid Success (JsonText uispResponse) None
            (note (UispPost paymentData true) s)))
| posted_left_pending (uispResponse : value) (message message' : string) :
    let txid := get paymentData "transaction_id" in
    uisp e paymentData = Returned uispResponse ->
    storage_fault e
      (UpdatePaymentStatus txid Success (JsonText uispResponse) None)
    = Some message ->
    storage_fault e
      (UpdatePaymentStatus txid Failed NoPayload (Some message))
    = Some message' ->
    finalization e paymentData s
      (Returned (webhook.internal_error_response message'),
       unmarked txid Failed NoPayload (Some message)
         (unmarked txid Success (JsonText uispResponse) None
            (note (UispPost paymentData true) s)))
| rejected_marked (message : string) :
    let txid := get paymentData "transaction_id" in
    uisp e paymentData = Thrown message ->
    storage_fault e
      (UpdatePaymentStatus txid Failed NoPayload (Some message))
    = None ->
    finalization e paymentData s
      (Returned (webhook.post_failed_response txid message),
       marked txid Failed NoPayload (Some message)
         (note (UispPost paymentData false) s))
| rejected_left_pending (message message' : string) :
    let txid := get paymentData "transaction_id" in
    uisp e paymentData = Thrown message ->
    storage_fault e
      (UpdatePaymentStatus txid Failed NoPayload (Some message))
    = Some message' ->
    finalization e paymentData s
      (Returned (webhook.internal_error_response message'),
       unmarked txid Failed NoPayload (Some message)
         (note (UispPost paymentData false) s)).

(** The bodies the webhook answers with: a 200 carries a [message] and no
    [error]; the 400 carries [error] and [missingFields], neither
    [message] nor [success]; a 500 carries [error] and [message] and no
    [success]. *)
Definition webhook_body (r : response) : bool :=
  match code r with
  | 200 =>
      is_string (get (json r) "message")
      && negb (has_key (json r) "error")
  | 400 =>
      is_string (get (json r) "error")
      && has_key (json r) "missingFields"
      && negb (has_key (json r) "message")
      && negb (has_key (json r) "success")
  | 500 =>
      is_string (get (json r) "error")
      && is_string (get (json r) "message")
      && negb (has_key (json r) "success")
  | _ => false
  end.

(** The bodies the listing answers with: [success: true] with [data] and
    [pagination] and no [message] at 200, [success: false] with [error]
    and [message] at 500. *)
Definition listing_body (r : response) : bool :=
  match code r, get (json r) "success" with
  | 200, VBool true =>
      has_key (json r) "data"
      && has_key (json r) "pagination"
      && negb (has_key (json r) "error")
      && negb (has_key (json r) "message")
  | 500, VBool false =>
      is_string (get (json r) "error")
      && is_string (get (json r) "message")
      && negb (has_key (json r) "data")
  | _, _ => false
  end.

(** What the history gains up to the post, for a payload that is
    accepted, is no duplicate and is inserted. *)
Definition arrival (e : env) (req : request) (paymentData : value)
  : list event :=
  [Gateway (LogWebhook (entry_of req)) true;
   Gateway (GetPaymentByTransactionId (get paymentData "transaction_id"))
     true;
   Gateway (InsertPayment (webhook.paymentRecord_of e paymentData)) true].

(** The ways a processed payment can end: what UISP answered and whether
    the storage took the status updates. *)
Inductive ending : Type :=
| Posted (uispResponse : value)
| PostedUnmarked (uispResponse : value) (message : string)
| PostedLost (uispResponse : value) (message message' : string)
| Rejected (message : string)
| RejectedLost (message message' : string).

(** The answer, the status of the row and what the history gains from the
    post on, for each ending. *)
Definition ending_response (e : env) (paymentData : value) (x : ending)
  : response :=
  let txid := get paymentData "transaction_id" in
  match x with
  | Posted uispResponse => webhook.posted_response e txid uispResponse
  | PostedUnmarked _ message => webhook.post_failed_response txid message
  | PostedLost _ _ message' => webhook.internal_error_response message'
  | Rejected message => webhook.post_failed_response txid message
  | RejectedLost _ message' => webhook.internal_error_response message'
  end.

Definition ending_row (e : env) (paymentData : value) (x : ending)
  : payment :=
  let r := webhook.paymentRecord_of e paymentData in
  match x with
  | Posted uispResponse => mkPayment r Success (JsonText uispResponse) None
  | PostedUnmarked _ message => mkPayment r Failed NoPayload (Some message)
  | PostedLost _ _ _ => mkPayment r Pending NoPayload None
  | Rejected message => mkPayment r Failed NoPayload (Some message)
  | RejectedLost _ _ => mkPayment r Pending NoPayload None
  end.

Definition ending_events (paymentData : value) (x : ending) : list event :=
  let txid := get paymentData "transaction_id" in
  match x with
  | Posted uispResponse =>
      [UispPost paymentData true;
       Gateway (UpdatePaymentStatus txid Success (JsonText uispResponse)
                  None) true;
       ClientSync (parseInt (to_string (get paymentData "client_id")))]
  | PostedUnmarked uispResponse message =>
      [UispPost paymentData true;
       Gateway (UpdatePaymentStatus txid Success (JsonText uispResponse)
                  None) false;
       Gateway (UpdatePaymentStatus txid Failed NoPayload (Some message))
         true]
  | PostedLost uispResponse message _ =>
      [UispPost paymentData true;
       Gateway (UpdatePaymentStatus txid Success (JsonText uispResponse)
                  None) false;
       Gateway (UpdatePaymentStatus txid Failed NoPayload (Some message))
         false]
  | Rejected message =>
      [UispPost paymentData false;
       Gateway (UpdatePaymentStatus txid Failed NoPayload (Some message))
         true]
  | RejectedLost message _ =>
      [UispPost paymentData false;
       Gateway (UpdatePaymentStatus txid Failed NoPayload (Some message))
         false]
  end.

(** When an ending is the one the environment gives. *)
Definition ending_of (e : env) (paymentData : value) (x : ending) : Prop :=
  let txid := get paymentData "transaction_id" in
  match x with
  | Posted uispResponse =>
      uisp e paymentData = Returned uispResponse /\
      storage_fault e
        (UpdatePaymentStatus txid Success (JsonText uispResponse) None)
      = None
  | PostedUnmarked uispResponse message =>
      uisp e paymentData = Returned uispResponse /\
      storage_fault e
        (UpdatePaymentStatus txid Success (JsonText uispResponse) None)
      = Some message /\
      storage_fault e
        (UpdatePaymentStatus txid Failed NoPayload (Some message)) = None
  | PostedLost uispResponse message message' =>
      uisp e paymentData = Returned uispResponse /\
      storage_fault e
        (UpdatePaymentStatus txid Success (JsonText uispResponse) None)
      = Some message /\
      storage_fault e
        (UpdatePaymentStatus txid Failed NoPayload (Some message))
      = Some message'
  | Rejected message =>
      uisp e paymentData = Thrown message /\
      storage_fault e
        (UpdatePaymentStatus txid Failed NoPayload (Some message)) = None
  | RejectedLost message message' =>
      uisp e paymentData = Thrown message /\
      storage_fault e
        (UpdatePaymentStatus txid Failed NoPayload (Some message))
      = Some message'
  end.

(** An event that is a gateway call: neither a post nor a resync. *)
Definition is_gateway (ev : event) : bool :=
  match ev with
  | Gateway _ _ => true
  | _ => false
  end.

(** The answers of a request that is not processed. *)
Inductive unprocessed_response : response -> Prop :=
| answer_internal_error (message : string) :
    unprocessed_response (webhook.internal_error_response message)
| answer_ping : unprocessed_response webhook.ping_response
| answer_probe : unprocessed_response webhook.probe_response
| answer_missing (missing : list string) :
    unprocessed_response (webhook.missing_response missing)
| answer_duplicate (txid : value) (existing : payment) :
    unprocessed_response (webhook.duplicate_response txid existing).

(** A row whose record has a truthy transaction id, client id, amount
    and currency code. *)
Definition complete_row (p : payment) : bool :=
  truthy (transaction_id (record p))
  && truthy (client_id (record p))
  && truthy (amount (record p))
  && truthy (currency_code (record p)).

(** A row whose response and error go with its status: neither while
    pending, the response alone on success, the error alone on failure. *)
Definition coherent_row (p : payment) : bool :=
  match status p, response_payload p, error_message p with
  | Pending, NoPayload, None => true
  | Success, JsonText _, None => true
  | Failed, NoPayload, Some _ => true
  | _, _, _ => false
  end.

(* ================================================================== *)
(** * Sample requests *)
(* ================================================================== *)

Module samples.

(** A request environment in which the storage is up and UISP accepts
    every payment. *)
Definition calm : env :=
  {| start_time := 1700000000000;
     txid_time := 1700000000005;
     created_time := "2023-11-14T22:13:20.005Z";
     end_time := 1700000000042;
     storage_fault := fun _ => None;
     uisp := fun _ => Returned (VObj [("id", VNum 9001)]) |}.

Definition post (b : value) : request :=
  mkRequest b (VObj [("content-type", VStr "application/json")])
    (VStr "203.0.113.7") true.

Definition sale : value :=
  VObj [("client_id", VNum 1); ("amount", VNum 100)].

(** Payment attributes that carry a field named [payment]. *)
Definition cash_sale : value :=
  VObj [("client_id", VNum 1); ("amount", VNum 100);
        ("payment", VStr "cash")].

Definition jsonapi (attributes : value) : value :=
  VObj [("data", VObj [("attributes", attributes)])].

Definition envelope (attributes : value) : value :=
  VObj [("payment", attributes)].

(** UISP rejects the payment and the storage refuses every status
    update. *)
Definition stuck : env :=
  {| start_time := 1700000000000;
     txid_time := 1700000000005;
     created_time := "2023-11-14T22:13:20.005Z";
     end_time := 1700000000042;
     storage_fault :=
       fun c =>
         match c with
         | UpdatePaymentStatus _ _ _ _ =>
             Some "SQLITE_BUSY: database is locked"
         | _ => None
         end;
     uisp := fun _ => Thrown "Request failed with status code 422" |}.

(** UISP accepts the payment and the storage refuses to mark it a
    success. *)
Definition half_stuck : env :=
  {| start_time := 1700000000000;
     txid_time := 1700000000005;
     created_time := "2023-11-14T22:13:20.005Z";
     end_time := 1700000000042;
     storage_fault :=
       fun c =>
         match c with
         | UpdatePaymentStatus _ Success _ _ =>
             Some "SQLITE_BUSY: database is locked"
         | _ => None
         end;
     uisp := fun _ => Returned (VObj [("id", VNum 9001)]) |}.

(** UISP rejects the payment, the storage is up. *)
Definition rejecting : env :=
  {| start_time := 1700000000000;
     txid_time := 1700000000005;
     created_time := "2023-11-14T22:13:20.005Z";
     end_time := 1700000000042;
     storage_fault := fun _ => None;
     uisp := fun _ => Thrown "Request failed with status code 422" |}.

Definition paid : value :=
  VObj [("client_id", VNum 1); ("amount", VNum 100);
        ("transaction_id", VStr "TX-1")].

(** The store after a first delivery of [paid]. *)
Definition delivered_once : store :=
  snd (webhook.handler samples.calm (samples.post paid) empty_store).

(** The storage refuses the webhook log entry. *)
Definition log_down : env :=
  {| start_time := 1700000000000;
     txid_time := 1700000000005;
     created_time := "2023-11-14T22:13:20.005Z";
     end_time := 1700000000042;
     storage_fault :=
       fun c =>
         match c with
         | LogWebhook _ => Some "SQLITE_FULL: database or disk is full"
         | _ => None
         end;
     uisp := fun _ => Returned (VObj [("id", VNum 9001)]) |}.

End samples.

(* ================================================================== *)
(** * Payload extraction *)
(* ================================================================== *)

Lemma member_defined (v : value) (k : string) :
  v <> VUndefined -> v <> VNull -> member v k = Returned (get v k).
Proof.
  intros Hu Hn. destruct v; simpl; try reflexivity; congruence.
Qed.

Lemma extract_bare (b : value) :
  b <> VUndefined -> b <> VNull ->
  webhook.has_data_attributes b = false ->
  webhook.has_payment b = false ->
  webhook.extract_paymentData b = Returned b.
Proof.
  intros Hu Hn Hd Hp. unfold webhook.extract_paymentData.
  rewrite (member_defined b "data" Hu Hn).
  unfold webhook.has_data_attributes in Hd. rewrite Hd.
  unfold webhook.has_payment in Hp. rewrite Hp. reflexivity.
Qed.

(** C4, as amended.  An attributes object [A] is extracted unchanged from
    the JSON-API shape [{data: {attributes: A}}] and from the envelope
    [{payment: A}]; it is extracted unchanged from the bare body [A] when
    [A] itself has no truthy [payment] field and no truthy
    [data.attributes]; and every body (other than [undefined] and [null])
    that meets neither of the two conditions is taken as the payload. *)
Theorem extract_paymentData_shapes (fields : list (string * value)) (b : value) :
  let A := VObj fields in
  webhook.extract_paymentData (samples.jsonapi A) = Returned A /\
  webhook.extract_paymentData (samples.envelope A) = Returned A /\
  (webhook.has_data_attributes A = false ->
   webhook.has_payment A = false ->
   webhook.extract_paymentData A = Returned A) /\
  (b <> VUndefined -> b <> VNull ->
   webhook.has_data_attributes b = false ->
   webhook.has_payment b = false ->
   webhook.extract_paymentData b = Returned b).
Proof.
  intro A. repeat split.
  - intros Hd Hp. apply extract_bare; subst A; congruence.
  - apply extract_bare.
Qed.

Lemma extract_paymentData_shapes_witness :
  webhook.extract_paymentData (samples.jsonapi samples.sale)
    = Returned samples.sale /\
  webhook.extract_paymentData (samples.envelope samples.sale)
    = Returned samples.sale /\
  webhook.extract_paymentData samples.sale = Returned samples.sale.
Proof.
  pose proof (extract_paymentData_shapes
                [("client_id", VNum 1); ("amount", VNum 100)] samples.sale)
    as (H1 & H2 & H3 & H4).
  split; [exact H1 | split; [exact H2 |]].
  apply H4; [discriminate | discriminate | reflexivity | reflexivity].
Defined.

(** C4 as stated fails: attributes with a [payment] field come out whole
    of both wrapped shapes, but sent bare the handler takes the value of
    that field for the payload. *)
Lemma bare_payload_with_payment_field :
  webhook.extract_paymentData (samples.jsonapi samples.cash_sale)
    = Returned samples.cash_sale /\
  webhook.extract_paymentData (samples.envelope samples.cash_sale)
    = Returned samples.cash_sale /\
  webhook.extract_paymentData samples.cash_sale = Returned (VStr "cash") /\
  webhook.extract_paymentData samples.cash_sale
    <> Returned samples.cash_sale.
Proof.
  repeat split; discriminate.
Qed.

(* ================================================================== *)
(** * Synthesized transaction ids *)
(* ================================================================== *)

Section Rendering.

Lemma digits_dashless (d : Decimal.uint) :
  dashless (NilEmpty.string_of_uint d).
Proof.
  induction d; simpl; auto; split; auto; discriminate.
Qed.

Lemma uint_dashless (d : Decimal.uint) :
  dashless (NilZero.string_of_uint d).
Proof.
  destruct d; try apply digits_dashless.
  simpl. split; [discriminate | exact I].
Qed.

Lemma uint_not_empty (d : Decimal.uint) :
  NilZero.string_of_uint d <> "".
Proof. destruct d; discriminate. Qed.

(** The first hyphen of a string splits it in one way only. *)
Lemma split_at_dash (a a' b b' : string) :
  dashless a -> dashless a' ->
  a ++ String "-" b = a' ++ String "-" b' -> a = a' /\ b = b'.
Proof.
  revert a'. induction a as [|c a IH]; intros [|c' a'] Ha Ha' H;
    simpl in *.
  - injection H as ->. auto.
  - injection H as Hc _. destruct Ha' as [Hc' _]. congruence.
  - injection H as Hc _. destruct Ha as [Hc' _]. congruence.
  - injection H as -> H. destruct Ha as [_ Ha], Ha' as [_ Ha'].
    destruct (IH a' Ha Ha' H) as [-> ->]. auto.
Qed.

Lemma number_to_string_inj (n m : Z) :
  number_to_string n = number_to_string m -> n = m.
Proof.
  unfold number_to_string. intro H.
  assert (Hnil : forall z, Z.to_int z <> Decimal.Pos Decimal.Nil
                        /\ Z.to_int z <> Decimal.Neg Decimal.Nil).
  { intros [|p|p]; simpl; split; try discriminate;
      intros [= Hp]; exact (DecimalPos.Unsigned.to_uint_nonnil p Hp). }
  apply DecimalZ.to_int_inj.
  assert (Some (Z.to_int n) = Some (Z.to_int m)) as [= ->]; [|reflexivity].
  rewrite <- (NilZero.isi (Z.to_int n) (proj1 (Hnil n)) (proj2 (Hnil n))).
  rewrite <- (NilZero.isi (Z.to_int m) (proj1 (Hnil m)) (proj2 (Hnil m))).
  now rewrite H.
Qed.

(** A rendered number followed by a hyphen determines the number and
    what follows. *)
Lemma number_then_dash (n m : Z) (b b' : string) :
  number_to_string n ++ String "-" b = number_to_string m ++ String "-" b' ->
  n = m /\ b = b'.
Proof.
  intro H.
  cut (number_to_string n = number_to_string m /\ b = b').
  { intros [Hn ->]. split; [now apply number_to_string_inj | reflexivity]. }
  revert H. unfold number_to_string.
  destruct (Z.to_int n) as [d|d], (Z.to_int m) as [d'|d']; simpl; intro H.
  - apply split_at_dash; auto using uint_dashless.
  - exfalso. pose proof (uint_dashless d) as Hd.
    pose proof (uint_not_empty d) as Hne.
    destruct (NilZero.string_of_uint d); [congruence|].
    simpl in H, Hd. injection H as Hc _. destruct Hd. congruence.
  - exfalso. pose proof (uint_dashless d') as Hd.
    pose proof (uint_not_empty d') as Hne.
    destruct (NilZero.string_of_uint d'); [congruence|].
    simpl in H, Hd. injection H as Hc _. destruct Hd. congruence.
  - injection H as H.
    destruct (split_at_dash _ _ _ _ (uint_dashless d) (uint_dashless d') H)
      as [-> ->]. auto.
Qed.

End Rendering.

Lemma synthesized_id_inj (t1 t2 : Z) (c1 c2 : value) :
  webhook.synthesized_id t1 c1 = webhook.synthesized_id t2 c2 ->
  t1 = t2 /\ to_string c1 = to_string c2.
Proof.
  unfold webhook.synthesized_id. simpl. intros [= H].
  exact (number_then_dash _ _ _ _ H).
Qed.

Lemma lookup_assign_same (k : string) (x : value)
    (fs : list (string * value)) :
  lookup k (assign k x fs) = x.
Proof.
  induction fs as [|[k' v] fs IH]; simpl.
  - now rewrite String.eqb_refl.
  - destruct (String.eqb k k') eqn:Hk; simpl.
    + now rewrite String.eqb_refl.
    + now rewrite Hk.
Qed.

Lemma lookup_assign_other (k k' : string) (x : value)
    (fs : list (string * value)) :
  k' <> k -> lookup k' (assign k x fs) = lookup k' fs.
Proof.
  intro Hne. induction fs as [|[k0 v] fs IH]; simpl.
  - apply String.eqb_neq in Hne. now rewrite Hne.
  - destruct (String.eqb k k0) eqn:Hk; simpl.
    + apply String.eqb_eq in Hk. subst k0.
      apply String.eqb_neq in Hne. now rewrite Hne.
    + destruct (String.eqb k' k0); auto.
Qed.

Lemma with_transaction_id_new (e : env) (fields : list (string * value)) :
  truthy (lookup "transaction_id" fields) = false ->
  get (webhook.with_transaction_id e (VObj fields)) "transaction_id"
  = VStr (webhook.synthesized_id (txid_time e) (lookup "client_id" fields)).
Proof.
  intro H. unfold webhook.with_transaction_id.
  cbn [get]. rewrite H. cbn [negb set get].
  apply lookup_assign_same.
Qed.




(* ================================================================== *)
(** * Running the webhook handler *)
(* ================================================================== *)

Lemma handler_logged (e : env) (req : request) (s : store) :
  storage_fault e (LogWebhook (entry_of req)) = None ->
  webhook.handler e req s
  = try_catch
      (paymentData <- lift (webhook.extract_paymentData (body req)) ;;
       webhook.dispatch e paymentData)
      (fun error => ret (webhook.internal_error_response error))
      (logged req s).
Proof.
  intro H. unfold webhook.handler, try_catch, bind, dbHelpers.logWebhook,
    dbHelpers.call. rewrite H. reflexivity.
Qed.

Lemma handler_log_refused (e : env) (req : request) (s : store)
    (message : string) :
  storage_fault e (LogWebhook (entry_of req)) = Some message ->
  webhook.handler e req s
  = (Returned (webhook.internal_error_response message),
     note (Gateway (LogWebhook (entry_of req)) false) s).
Proof.
  intro H. unfold webhook.handler, try_catch, bind, dbHelpers.logWebhook,
    dbHelpers.call. rewrite H. reflexivity.
Qed.

Lemma handler_extracted (e : env) (req : request) (s : store)
    (paymentData : value) :
  storage_fault e (LogWebhook (entry_of req)) = None ->
  webhook.extract_paymentData (body req) = Returned paymentData ->
  webhook.handler e req s
  = try_catch (webhook.dispatch e paymentData)
      (fun error => ret (webhook.internal_error_response error))
      (logged req s).
Proof.
  intros Hlog Hx. rewrite (handler_logged e req s Hlog).
  unfold try_catch, bind, lift. rewrite Hx. reflexivity.
Qed.

Lemma length_index_keys (n : nat) : List.length (index_keys n) = n.
Proof. unfold index_keys. now rewrite length_map, length_seq. Qed.

(** A ping has no keys, and the aliasing leaves it as it is. *)
Lemma ping_has_no_keys (paymentData : value) :
  webhook.is_ping paymentData = true ->
  webhook.alias_customer_id paymentData = paymentData /\
  List.length (keys paymentData) = 0%nat.
Proof.
  unfold webhook.is_ping, webhook.alias_customer_id, falsy.
  destruct paymentData as [| | b | n | s | items | fields];
    cbn [truthy negb orb keys get andb]; intro H; try (split; reflexivity).
  - rewrite length_index_keys in *.
    destruct s; [split; reflexivity | simpl in H; discriminate].
  - apply Nat.eqb_eq in H. split; [reflexivity | exact H].
  - apply Nat.eqb_eq in H. split; [|exact H].
    destruct fields as [|[k v] fields]; [reflexivity|].
    exfalso. cbn [map fst] in H.
    assert (Hin : In k (nodup string_dec (k :: map fst fields)))
      by (apply nodup_In; left; reflexivity).
    destruct (nodup string_dec (k :: map fst fields));
      [destruct Hin | discriminate].
Qed.

Lemma dispatch_unaccepted (e : env) (paymentData : value) (s : store) :
  webhook.missingFields (webhook.alias_customer_id paymentData) <> [] ->
  webhook.dispatch e paymentData s
  = (Returned
       (if webhook.is_ping paymentData then webhook.ping_response
        else if (List.length
                   (keys (webhook.alias_customer_id paymentData)) <? 3)%nat
        then webhook.probe_response
        else webhook.missing_response
               (webhook.missingFields
                  (webhook.alias_customer_id paymentData))),
     s).
Proof.
  intro Hm. unfold webhook.dispatch.
  destruct (webhook.is_ping paymentData); [reflexivity|].
  destruct (webhook.missingFields (webhook.alias_customer_id paymentData))
    as [|f fs] eqn:Hf; [congruence|].
  change (0 <? List.length (f :: fs))%nat with true. cbv iota.
  destruct (List.length (keys (webhook.alias_customer_id paymentData)) <? 3)%nat;
    reflexivity.
Qed.

Lemma dispatch_accepted (e : env) (paymentData : value) (s : store) :
  webhook.is_ping paymentData = false ->
  webhook.missingFields (webhook.alias_customer_id paymentData) = [] ->
  webhook.dispatch e paymentData s
  = webhook.process e
      (webhook.with_transaction_id e (webhook.alias_customer_id paymentData))
      s.
Proof.
  intros Hp Hm. unfold webhook.dispatch. rewrite Hp, Hm. reflexivity.
Qed.

(** C5, as amended.  When the webhook log takes the request and the
    payload, after the [customer_id] aliasing, lacks a truthy [client_id]
    or [amount]: with fewer than 3 keys the handler answers 200 with
    [success: true] and with 3 keys or more it answers 400 with the
    missing fields listed under [missingFields]; either way no payment is
    written and nothing is posted. *)
Theorem missing_field_probe_or_400 (e : env) (req : request) (s : store)
    (paymentData : value) :
  storage_fault e (LogWebhook (entry_of req)) = None ->
  webhook.extract_paymentData (body req) = Returned paymentData ->
  webhook.missingFields (webhook.alias_customer_id paymentData) <> [] ->
  let normalized := webhook.alias_customer_id paymentData in
  let out := webhook.handler e req s in
  snd out = logged req s /\
  ((List.length (keys normalized) < 3)%nat ->
   exists r, fst out = Returned r /\ code r = 200 /\
             get (json r) "success" = VBool true) /\
  ((3 <= List.length (keys normalized))%nat ->
   fst out = Returned (webhook.missing_response
                         (webhook.missingFields normalized)) /\
   code (webhook.missing_response (webhook.missingFields normalized)) = 400 /\
   get (json (webhook.missing_response (webhook.missingFields normalized)))
       "missingFields"
   = VArr (map VStr (webhook.missingFields normalized))).
Proof.
  intros Hlog Hx Hm normalized out. subst out.
  rewrite (handler_extracted e req s paymentData Hlog Hx).
  unfold try_catch. rewrite (dispatch_unaccepted e paymentData _ Hm).
  cbn [fst snd]. fold normalized. split; [reflexivity|]. split.
  - intro Hlt. apply Nat.ltb_lt in Hlt. rewrite Hlt.
    destruct (webhook.is_ping paymentData); eexists; split;
      try reflexivity; split; reflexivity.
  - intro Hge.
    destruct (webhook.is_ping paymentData) eqn:Hp.
    + destruct (ping_has_no_keys paymentData Hp) as [Ha Hk].
      subst normalized. rewrite Ha, Hk in Hge. lia.
    + apply Nat.ltb_ge in Hge. rewrite Hge. repeat split.
Qed.

Lemma missing_field_probe_or_400_witness :
  (exists r,
     fst (webhook.handler samples.calm
            (samples.post (VObj [("client_id", VNum 1)])) empty_store)
     = Returned r /\ code r = 200 /\ get (json r) "success" = VBool true) /\
  fst (webhook.handler samples.calm
         (samples.post (VObj [("client_id", VNum 1); ("foo", VNum 1);
                              ("bar", VNum 2)])) empty_store)
  = Returned (webhook.missing_response ["amount"]).
Proof.
  split.
  - destruct (missing_field_probe_or_400 samples.calm
                (samples.post (VObj [("client_id", VNum 1)])) empty_store
                (VObj [("client_id", VNum 1)]))
      as (_ & H & _);
      [reflexivity | reflexivity | discriminate |].
    apply H. simpl. lia.
  - destruct (missing_field_probe_or_400 samples.calm
                (samples.post (VObj [("client_id", VNum 1); ("foo", VNum 1);
                                     ("bar", VNum 2)])) empty_store
                (VObj [("client_id", VNum 1); ("foo", VNum 1);
                       ("bar", VNum 2)]))
      as (_ & _ & H);
      [reflexivity | reflexivity | discriminate |].
    apply H. simpl. lia.
Defined.

(** C5 as stated fails on its own example: [{client_id: 1, amount: 100,
    foo: 1}] with a required field removed has two keys, so the handler
    takes it for a probe and answers 200, not 400. *)
Lemma two_key_payload_is_probe :
  fst (webhook.handler samples.calm
         (samples.post (VObj [("client_id", VNum 1); ("foo", VNum 1)]))
         empty_store)
  = Returned webhook.probe_response /\
  fst (webhook.handler samples.calm
         (samples.post (VObj [("amount", VNum 100); ("foo", VNum 1)]))
         empty_store)
  = Returned webhook.probe_response /\
  code webhook.probe_response = 200 /\
  code webhook.probe_response <> 400.
Proof.
  repeat split; discriminate.
Qed.

(** C6, as amended.  When the extracted payload is falsy or has no keys
    and the webhook log takes the request, the handler answers 200; it
    writes no payment and posts nothing, and what it leaves behind is the
    one entry appended to the webhook log. *)
Theorem ping_only_logs (e : env) (req : request) (s : store)
    (paymentData : value) :
  storage_fault e (LogWebhook (entry_of req)) = None ->
  webhook.extract_paymentData (body req) = Returned paymentData ->
  webhook.is_ping paymentData = true ->
  let out := webhook.handler e req s in
  fst out = Returned webhook.ping_response /\
  code webhook.ping_response = 200 /\
  payments (snd out) = payments s /\
  webhook_log (snd out) = (webhook_log s ++ [entry_of req])%list /\
  history (snd out)
  = (history s ++ [Gateway (LogWebhook (entry_of req)) true])%list.
Proof.
  intros Hlog Hx Hp out. subst out.
  rewrite (handler_extracted e req s paymentData Hlog Hx).
  unfold try_catch, webhook.dispatch. rewrite Hp.
  repeat split.
Qed.

Lemma ping_only_logs_witness :
  fst (webhook.handler samples.calm (samples.post (VObj [])) empty_store)
  = Returned webhook.ping_response /\
  payments (snd (webhook.handler samples.calm (samples.post (VObj []))
                   empty_store)) = [].
Proof.
  destruct (ping_only_logs samples.calm (samples.post (VObj [])) empty_store
              (VObj []))
    as (H1 & _ & H2 & _); [reflexivity | reflexivity | reflexivity |].
  split; [exact H1 | exact H2].
Defined.

(** C6 as stated fails: the empty body is answered 200 and writes no
    payment, but it is not without side effect, the webhook log has
    grown by the request. *)
Lemma empty_body_is_logged :
  fst (webhook.handler samples.calm (samples.post (VObj [])) empty_store)
  = Returned webhook.ping_response /\
  webhook_log (snd (webhook.handler samples.calm (samples.post (VObj []))
                      empty_store))
  = [entry_of (samples.post (VObj []))] /\
  snd (webhook.handler samples.calm (samples.post (VObj [])) empty_store)
  <> empty_store.
Proof.
  repeat split; discriminate.
Qed.

(* ================================================================== *)
(** * Required fields are tested by truthiness *)
(* ================================================================== *)

Lemma alias_without_customer_id (paymentData : value) :
  truthy (get paymentData "customer_id") = false ->
  webhook.alias_customer_id paymentData = paymentData.
Proof.
  intro H. unfold webhook.alias_customer_id. now rewrite H.
Qed.

Lemma alias_keeps_amount (paymentData : value) :
  get (webhook.alias_customer_id paymentData) "amount"
  = get paymentData "amount".
Proof.
  unfold webhook.alias_customer_id.
  destruct (truthy (get paymentData "customer_id")
            && negb (truthy (get paymentData "client_id"))); [|reflexivity].
  destruct paymentData; try reflexivity.
  cbn [set get]. apply lookup_assign_other. discriminate.
Qed.

Lemma missing_iff (paymentData : value) (field : string) :
  In field (webhook.missingFields paymentData) <->
  In field webhook.requiredFields /\ truthy (get paymentData field) = false.
Proof.
  unfold webhook.missingFields. rewrite filter_In.
  now rewrite Bool.negb_true_iff.
Qed.




(* ================================================================== *)
(** * The runs of the webhook handler *)
(* ================================================================== *)

Lemma finalization_total (e : env) (paymentData : value) (s : store) :
  finalization e paymentData s
    (try_catch (webhook.post_and_finalize e paymentData)
       (fun error => ret (webhook.internal_error_response error)) s).
Proof.
  unfold webhook.post_and_finalize, try_catch, bind, postPaymentToUISP,
    dbHelpers.updatePaymentStatus, dbHelpers.call, syncSingleClient, ret.
  destruct (uisp e paymentData) as [uispResponse|message] eqn:Hu.
  - destruct (storage_fault e
                (UpdatePaymentStatus (get paymentData "transaction_id")
                   Success (JsonText uispResponse) None))
      as [message|] eqn:Hs.
    + destruct (storage_fault e
                  (UpdatePaymentStatus (get paymentData "transaction_id")
                     Failed NoPayload (Some message)))
        as [message'|] eqn:Hf.
      * eapply posted_left_pending; eassumption.
      * eapply posted_marked_failed; eassumption.
    + eapply posted_marked; eassumption.
  - destruct (storage_fault e
                (UpdatePaymentStatus (get paymentData "transaction_id")
                   Failed NoPayload (Some message)))
      as [message'|] eqn:Hf.
    + eapply rejected_left_pending; eassumption.
    + eapply rejected_marked; eassumption.
Qed.

Lemma find_none_existsb {A} (f : A -> bool) (l : list A) :
  find f l = None -> existsb f l = false.
Proof.
  induction l as [|a l IH]; simpl; [reflexivity|].
  destruct (f a); [discriminate | exact IH].
Qed.

Lemma ping_misses_fields (paymentData : value) :
  webhook.is_ping paymentData = true ->
  webhook.missingFields (webhook.alias_customer_id paymentData)
  = webhook.requiredFields.
Proof.
  intro Hp. destruct (ping_has_no_keys paymentData Hp) as [-> Hk].
  destruct paymentData as [| | b | n | s | items | fields];
    try reflexivity.
  destruct fields as [|[k v] fields]; [reflexivity|].
  exfalso. cbn [keys map fst] in Hk.
  assert (Hin : In k (nodup string_dec (k :: map fst fields)))
    by (apply nodup_In; left; reflexivity).
  destruct (nodup string_dec (k :: map fst fields));
    [destruct Hin | discriminate].
Qed.

Lemma process_run (e : env) (req : request) (s : store)
    (paymentData : value) :
  storage_fault e (LogWebhook (entry_of req)) = None ->
  accepted e (body req) = Some paymentData ->
  run e req s
    (try_catch (webhook.process e paymentData)
       (fun error => ret (webhook.internal_error_response error))
       (logged req s)).
Proof.
  intros Hlog Hacc.
  unfold webhook.process, try_catch at 1, bind at 1,
    dbHelpers.getPaymentByTransactionId, dbHelpers.call.
  destruct (storage_fault e
              (GetPaymentByTransactionId (get paymentData "transaction_id")))
    as [message|] eqn:Hget.
  { now apply run_lookup_refused. }
  cbn [payments logged note append_log].
  destruct (find (has_txid (get paymentData "transaction_id")) (payments s))
    as [existing|] eqn:Hfind.
  { now apply run_duplicate. }
  unfold bind, dbHelpers.insertPayment, dbHelpers.call.
  destruct (storage_fault e
              (InsertPayment (webhook.paymentRecord_of e paymentData)))
    as [message|] eqn:Hins.
  { now apply run_insert_refused. }
  cbn [payments logged note append_log webhook.paymentRecord_of
       transaction_id].
  rewrite (find_none_existsb _ _ Hfind).
  now apply run_processed.
Qed.

(** The handler always answers, in one of the ways of [run]. *)
Lemma handler_run (e : env) (req : request) (s : store) :
  run e req s (webhook.handler e req s).
Proof.
  destruct (storage_fault e (LogWebhook (entry_of req))) as [message|] eqn:Hlog.
  { rewrite (handler_log_refused e req s message Hlog).
    now apply run_log_refused. }
  destruct (webhook.extract_paymentData (body req))
    as [extracted|message] eqn:Hx.
  2:{ rewrite (handler_logged e req s Hlog).
      unfold try_catch, bind, lift. rewrite Hx.
      now apply run_type_error. }
  rewrite (handler_extracted e req s extracted Hlog Hx).
  destruct (webhook.missingFields (webhook.alias_customer_id extracted))
    as [|f fs] eqn:Hm.
  - assert (Hp : webhook.is_ping extracted = false).
    { destruct (webhook.is_ping extracted) eqn:Hp; [|reflexivity].
      rewrite (ping_misses_fields extracted Hp) in Hm. discriminate. }
    assert (Hacc : accepted e (body req)
                   = Some (webhook.with_transaction_id e
                             (webhook.alias_customer_id extracted))).
    { unfold accepted. now rewrite Hx, Hp, Hm. }
    unfold try_catch. rewrite (dispatch_accepted e extracted _ Hp Hm).
    exact (process_run e req s _ Hlog Hacc).
  - assert (Hne : webhook.missingFields (webhook.alias_customer_id extracted)
                  <> []) by (rewrite Hm; discriminate).
    unfold try_catch. rewrite (dispatch_unaccepted e extracted _ Hne).
    apply run_unaccepted with (extracted := extracted); auto.
    + unfold accepted. rewrite Hx, Hm.
      destruct (webhook.is_ping extracted); reflexivity.
    + rewrite Hm.
      destruct (webhook.is_ping extracted); [now left|].
      destruct (List.length (keys (webhook.alias_customer_id extracted)) <? 3)%nat;
        [right; now left | right; now right].
Qed.

(* ================================================================== *)
(** * The pending record comes before the post *)
(* ================================================================== *)

Lemma inserted_payments (e : env) (req : request) (paymentData : value)
    (s : store) :
  payments (inserted e req paymentData s)
  = (payments s
       ++ [dbHelpers.pending (webhook.paymentRecord_of e paymentData)])%list.
Proof. reflexivity. Qed.

Lemma inserted_history (e : env) (req : request) (paymentData : value)
    (s : store) :
  history (inserted e req paymentData s)
  = (history s
       ++ [Gateway (LogWebhook (entry_of req)) true;
           Gateway (GetPaymentByTransactionId
                      (get paymentData "transaction_id")) true;
           Gateway (InsertPayment (webhook.paymentRecord_of e paymentData))
             true])%list.
Proof.
  unfold inserted, logged. cbn [history note with_payments append_log].
  now rewrite <- !app_assoc.
Qed.

(** What a finalization adds to the history: the post first. *)
Lemma finalization_history (e : env) (paymentData : value) (s : store)
    (out : result response * store) :
  finalization e paymentData s out ->
  exists returned rest,
    history (snd out)
    = (history s ++ UispPost paymentData returned :: rest)%list /\
    posted_ids rest = [] /\
    (forall c, ~ In (Gateway c false) rest \/
               exists txid st response error,
                 c = UpdatePaymentStatus txid st response error).
Proof.
  intros [resp txid Hu Hs | resp m txid Hu Hs Hf | resp m m' txid Hu Hs Hf
         | m txid Hu Hf | m m' txid Hu Hf];
    unfold marked, unmarked; cbn [snd history note with_payments];
    rewrite <- ?app_assoc; cbn [app]; eexists; eexists;
    (split; [reflexivity | split; [reflexivity |]]);
    intro c; destruct c; try (left; simpl; intuition discriminate);
    right; eauto.
Qed.

Lemma posted_ids_split (before rest : list event) (paymentData : value)
    (returned : bool) :
  posted_ids (before ++ UispPost paymentData returned :: rest)%list <> [].
Proof.
  induction before as [|ev before IH]; simpl.
  - discriminate.
  - destruct ev; auto; discriminate.
Qed.

Ltac no_post :=
  let H := fresh "H" in
  intros ? ? ? ? H; exfalso;
  eapply posted_ids_split; rewrite <- H; reflexivity.

Ltac no_failed_insert :=
  let H := fresh "H" in
  intros ? H; exfalso; simpl in H; intuition discriminate.



(* ================================================================== *)
(** * The final status *)
(* ================================================================== *)

Lemma update_absent (txid : value) (st : payment_status) (rp : payload)
    (er : option string) (rows : list payment) :
  find (has_txid txid) rows = None ->
  map (dbHelpers.update_row txid st rp er) rows = rows.
Proof.
  induction rows as [|p rows IH]; simpl; [reflexivity|].
  unfold dbHelpers.update_row at 1.
  destruct (has_txid txid p); [discriminate|].
  intro H. now rewrite (IH H).
Qed.

Lemma update_appended (e : env) (paymentData : value) (st : payment_status)
    (rp : payload) (er : option string) (rows : list payment) :
  let r := webhook.paymentRecord_of e paymentData in
  find (has_txid (get paymentData "transaction_id")) rows = None ->
  map (dbHelpers.update_row (get paymentData "transaction_id") st rp er)
    (rows ++ [dbHelpers.pending r])
  = (rows ++ [mkPayment r st rp er])%list.
Proof.
  intros r H. rewrite map_app, (update_absent _ st rp er rows H).
  f_equal. simpl. unfold dbHelpers.update_row, has_txid, txid_of. simpl.
  destruct (value_eq_dec (get paymentData "transaction_id")
              (get paymentData "transaction_id")); [reflexivity | congruence].
Qed.

Lemma accepted_inv (e : env) (b paymentData : value) :
  accepted e b = Some paymentData ->
  exists extracted,
    webhook.extract_paymentData b = Returned extracted /\
    webhook.is_ping extracted = false /\
    webhook.missingFields (webhook.alias_customer_id extracted) = [] /\
    paymentData
    = webhook.with_transaction_id e (webhook.alias_customer_id extracted).
Proof.
  unfold accepted.
  destruct (webhook.extract_paymentData b) as [x|]; [|discriminate].
  destruct (webhook.is_ping x) eqn:Hp; [discriminate|].
  destruct (webhook.missingFields (webhook.alias_customer_id x)) eqn:Hm;
    [|discriminate].
  intros [= <-]. exists x. repeat split; assumption.
Qed.

Lemma handler_accepted (e : env) (req : request) (s : store)
    (paymentData : value) :
  storage_fault e (LogWebhook (entry_of req)) = None ->
  accepted e (body req) = Some paymentData ->
  webhook.handler e req s
  = try_catch (webhook.process e paymentData)
      (fun error => ret (webhook.internal_error_response error))
      (logged req s).
Proof.
  intros Hlog Hacc.
  destruct (accepted_inv e _ _ Hacc) as (x & Hx & Hp & Hm & ->).
  rewrite (handler_extracted e req s x Hlog Hx).
  unfold try_catch. now rewrite (dispatch_accepted e x _ Hp Hm).
Qed.

Lemma handler_processed (e : env) (req : request) (s : store)
    (paymentData : value) :
  storage_fault e (LogWebhook (entry_of req)) = None ->
  accepted e (body req) = Some paymentData ->
  storage_fault e
    (GetPaymentByTransactionId (get paymentData "transaction_id")) = None ->
  find (has_txid (get paymentData "transaction_id")) (payments s) = None ->
  storage_fault e (InsertPayment (webhook.paymentRecord_of e paymentData))
  = None ->
  webhook.handler e req s
  = try_catch (webhook.post_and_finalize e paymentData)
      (fun error => ret (webhook.internal_error_response error))
      (inserted e req paymentData s).
Proof.
  intros Hlog Hacc Hget Hfind Hins.
  rewrite (handler_accepted e req s paymentData Hlog Hacc).
  unfold webhook.process, try_catch at 1, bind at 1,
    dbHelpers.getPaymentByTransactionId, dbHelpers.call.
  rewrite Hget. cbn [payments logged note append_log]. rewrite Hfind.
  unfold bind, dbHelpers.insertPayment, dbHelpers.call. rewrite Hins.
  cbn [payments logged note append_log webhook.paymentRecord_of
       transaction_id].
  now rewrite (find_none_existsb _ _ Hfind).
Qed.




(** The other way the status goes wrong under a refused update: UISP has
    accepted the payment, the storage refuses to mark it a success, the
    inner catch marks it failed and the answer says the post failed. *)
Lemma accepted_post_marked_failed :
  let out := webhook.handler samples.half_stuck (samples.post samples.sale)
               empty_store in
  fst out
  = Returned (webhook.post_failed_response (VStr "SPLYNX-1700000000005-1")
                "SQLITE_BUSY: database is locked") /\
  history (snd out)
  = [Gateway (LogWebhook (entry_of (samples.post samples.sale))) true;
     Gateway (GetPaymentByTransactionId (VStr "SPLYNX-1700000000005-1")) true;
     Gateway (InsertPayment
                (webhook.paymentRecord_of samples.half_stuck
                   (webhook.with_transaction_id samples.half_stuck
                      samples.sale))) true;
     UispPost (webhook.with_transaction_id samples.half_stuck samples.sale)
       true;
     Gateway (UpdatePaymentStatus (VStr "SPLYNX-1700000000005-1") Success
                (JsonText (VObj [("id", VNum 9001)])) None) false;
     Gateway (UpdatePaymentStatus (VStr "SPLYNX-1700000000005-1") Failed
                NoPayload (Some "SQLITE_BUSY: database is locked")) true] /\
  map (fun p => (status p, error_message p)) (payments (snd out))
  = [(Failed, Some "SQLITE_BUSY: database is locked")].
Proof.
  repeat split.
Qed.

(* ================================================================== *)
(** * Redelivery *)
(* ================================================================== *)

Lemma posted_ids_app (h h' : list event) :
  posted_ids (h ++ h') = (posted_ids h ++ posted_ids h')%list.
Proof.
  induction h as [|ev h IH]; simpl; [reflexivity|].
  destruct ev; simpl; now rewrite ?IH.
Qed.

Lemma find_none_not_stored (txid : value) (rows : list payment) :
  find (has_txid txid) rows = None -> ~ In txid (map txid_of rows).
Proof.
  induction rows as [|p rows IH]; simpl; [tauto|].
  unfold has_txid at 1.
  destruct (value_eq_dec (txid_of p) txid); [discriminate|].
  intros H [Hp | Hin]; [congruence | exact (IH H Hin)].
Qed.

Lemma update_keeps_ids (txid : value) (st : payment_status) (rp : payload)
    (er : option string) (rows : list payment) :
  map txid_of (map (dbHelpers.update_row txid st rp er) rows)
  = map txid_of rows.
Proof.
  rewrite map_map. apply map_ext. intro p.
  unfold dbHelpers.update_row. now destruct (has_txid txid p).
Qed.

(** What a finalization does to the stored and the posted ids. *)
Lemma finalization_ids (e : env) (paymentData : value) (s : store)
    (out : result response * store) :
  finalization e paymentData s out ->
  stored_ids (snd out) = stored_ids s /\
  posted_ids (history (snd out))
  = (posted_ids (history s) ++ [get paymentData "transaction_id"])%list.
Proof.
  intros [resp txid Hu Hs | resp m txid Hu Hs Hf | resp m m' txid Hu Hs Hf
         | m txid Hu Hf | m m' txid Hu Hf];
    unfold marked, unmarked, stored_ids;
    cbn [snd history payments note with_payments];
    rewrite ?update_keeps_ids, ?posted_ids_app; cbn [posted_ids];
    rewrite ?app_nil_r; split; reflexivity.
Qed.

(** A request either leaves the stored and the posted ids as they are, or
    stores and posts one id that was not stored. *)
Lemma handler_ids (e : env) (req : request) (s : store) :
  let s' := snd (webhook.handler e req s) in
  (stored_ids s' = stored_ids s /\
   posted_ids (history s') = posted_ids (history s)) \/
  (exists txid,
      ~ In txid (stored_ids s) /\
      stored_ids s' = (stored_ids s ++ [txid])%list /\
      posted_ids (history s') = (posted_ids (history s) ++ [txid])%list).
Proof.
  intro s'. subst s'.
  destruct (handler_run e req s)
    as [m Hlog | m Hlog Hx | x r Hlog Hx Hacc Hr | pd m Hlog Hacc Hget
       | pd existing Hlog Hacc Hget Hfind | pd m Hlog Hacc Hget Hfind Hins
       | pd Hlog Hacc Hget Hfind Hins];
    try (left; unfold logged, stored_ids;
         cbn [snd history payments note append_log];
         rewrite ?posted_ids_app; cbn [posted_ids];
         rewrite ?app_nil_r; split; reflexivity).
  right. exists (get pd "transaction_id").
  destruct (finalization_ids _ _ _ _
              (finalization_total e pd (inserted e req pd s))) as [Hst Hpo].
  split; [now apply find_none_not_stored|].
  rewrite Hst, Hpo. unfold stored_ids.
  rewrite inserted_payments, inserted_history, map_app, posted_ids_app.
  cbn [posted_ids map]. rewrite app_nil_r. split; reflexivity.
Qed.

Lemma deliver_consistent (s : store) (d : env * request) :
  consistent s -> consistent (deliver s d).
Proof.
  intros (Hst & Hpo & Hincl). unfold deliver, consistent.
  destruct (handler_ids (fst d) (snd d) s)
    as [[-> ->] | (txid & Hnew & -> & ->)]; [auto|].
  assert (Hnp : ~ In txid (posted_ids (history s))) by auto.
  repeat split.
  - apply NoDup_app; [exact Hst | repeat constructor; intros [] |].
    intros x Hx [<-|[]]. contradiction.
  - apply NoDup_app; [exact Hpo | repeat constructor; intros [] |].
    intros x Hx [<-|[]]. contradiction.
  - apply incl_app_app; [exact Hincl | apply incl_refl].
Qed.

Lemma deliveries_consistent (ds : list (env * request)) (s : store) :
  consistent s -> consistent (deliveries ds s).
Proof.
  revert s. induction ds as [|d ds IH]; intros s Hs; [exact Hs|].
  apply (IH (deliver s d)). now apply deliver_consistent.
Qed.

Ltac same_payload :=
  match goal with
  | H : accepted ?e ?b = Some ?p, H' : accepted ?e ?b = Some ?q |- _ =>
      assert (q = p) by congruence; subst q
  end.




(* ================================================================== *)
(** * The payments listing *)
(* ================================================================== *)

Lemma get_payments_listed (row_json : payment -> value) (e : env)
    (q : api.query) (s : store) :
  let limit := parseInt_or (api.limit q) 50 in
  let offset := parseInt_or (api.offset q) 0 in
  storage_fault e (GetAllPayments limit offset) = None ->
  api.get_payments row_json e q s
  = (Returned
       (api.listing_response row_json limit offset
          (firstn (Z.to_nat limit) (skipn (Z.to_nat offset) (payments s)))),
     note (Gateway (GetAllPayments limit offset) true) s).
Proof.
  intros limit offset H.
  unfold api.get_payments, try_catch, bind, dbHelpers.getAllPayments,
    dbHelpers.call.
  fold limit offset. rewrite H. reflexivity.
Qed.

Lemma get_payments_refused (row_json : payment -> value) (e : env)
    (q : api.query) (s : store) (message : string) :
  let limit := parseInt_or (api.limit q) 50 in
  let offset := parseInt_or (api.offset q) 0 in
  storage_fault e (GetAllPayments limit offset) = Some message ->
  api.get_payments row_json e q s
  = (Returned (api.listing_failed_response message),
     note (Gateway (GetAllPayments limit offset) false) s).
Proof.
  intros limit offset H.
  unfold api.get_payments, try_catch, bind, dbHelpers.getAllPayments,
    dbHelpers.call.
  fold limit offset. rewrite H. reflexivity.
Qed.




(* ================================================================== *)
(** * Response bodies *)
(* ================================================================== *)

Lemma webhook_answers (e : env) (req : request) (s : store) :
  exists r,
    fst (webhook.handler e req s) = Returned r /\
    webhook_body r = true /\
    (has_key (json r) "success" = true ->
     r = webhook.ping_response \/ r = webhook.probe_response).
Proof.
  destruct (handler_run e req s)
    as [m Hlog | m Hlog Hx | x r Hlog Hx Hacc Hr | pd m Hlog Hacc Hget
       | pd existing Hlog Hacc Hget Hfind | pd m Hlog Hacc Hget Hfind Hins
       | pd Hlog Hacc Hget Hfind Hins];
    try (eexists; split; [reflexivity|]; split;
         [reflexivity | intro H; discriminate H]).
  - exists r. split; [reflexivity|].
    destruct Hr as [-> | [-> | ->]].
    + split; [reflexivity | now left].
    + split; [reflexivity | now right].
    + split; [reflexivity | intro H; discriminate H].
  - destruct (finalization_total e pd (inserted e req pd s))
      as [resp txid Hu Hs | resp m txid Hu Hs Hf | resp m m' txid Hu Hs Hf
         | m txid Hu Hf | m m' txid Hu Hf];
      (eexists; split; [reflexivity|]; split;
       [reflexivity | intro H; discriminate H]).
Qed.

Lemma listing_answers (row_json : payment -> value) (e : env)
    (q : api.query) (s : store) :
  exists r,
    fst (api.get_payments row_json e q s) = Returned r /\
    listing_body r = true.
Proof.
  destruct (storage_fault e
              (GetAllPayments (parseInt_or (api.limit q) 50)
                 (parseInt_or (api.offset q) 0))) as [message|] eqn:Hup.
  - rewrite (get_payments_refused row_json e q s message Hup).
    eexists. split; reflexivity.
  - rewrite (get_payments_listed row_json e q s Hup).
    eexists. split; reflexivity.
Qed.

(** C8, as amended.  Every request to [POST /webhook/payment] and to
    [GET /api/payments] is answered with a JSON object.  The webhook
    answers 200 with a [message] and no [error] (and with [success: true]
    only on the ping and the probe), 400 with [error] and [missingFields]
    and no [message], or 500 with [error] and [message], and only the
    ping and the probe carry [success].  The listing always carries a
    boolean [success]: [true] with [data] and [pagination] at 200,
    [false] with [error] and [message] at 500.  So a body with [error]
    always goes with a 400 or a 500. *)
Theorem response_bodies (row_json : payment -> value) (e : env)
    (req : request) (q : api.query) (s : store) :
  (exists r,
      fst (webhook.handler e req s) = Returned r /\
      webhook_body r = true /\
      (has_key (json r) "success" = true ->
       r = webhook.ping_response \/ r = webhook.probe_response) /\
      (has_key (json r) "error" = true -> code r = 400 \/ code r = 500)) /\
  (exists r,
      fst (api.get_payments row_json e q s) = Returned r /\
      listing_body r = true /\
      is_boolean (get (json r) "success") = true /\
      (has_key (json r) "error" = true -> code r = 500)).
Proof.
  split.
  - destruct (webhook_answers e req s) as (r & Hr & Hb & Hs).
    exists r. repeat split; auto.
    intro He. unfold webhook_body in Hb.
    destruct (code r) as [|p|p] eqn:Hc; try discriminate Hb.
    destruct (Pos.eq_dec p 200) as [->|H200].
    { rewrite He in Hb. rewrite Bool.andb_false_r in Hb. discriminate. }
    destruct (Pos.eq_dec p 400) as [->|H400]; [now left|].
    destruct (Pos.eq_dec p 500) as [->|H500]; [now right|].
    exfalso. clear - Hb H200 H400 H500.
    repeat (destruct p as [p|p|]; try discriminate Hb; try congruence).
  - destruct (listing_answers row_json e q s) as (r & Hr & Hb).
    exists r. split; [exact Hr|]. split; [exact Hb|].
    unfold listing_body in Hb.
    destruct (get (json r) "success") as [| | b | | | |] eqn:Hsucc;
      try (destruct (code r) as [|p|p];
           repeat (try discriminate Hb; destruct p as [p|p|]);
           discriminate Hb).
    split; [reflexivity|]. intro He.
    destruct (code r) as [|p|p] eqn:Hc; try discriminate Hb.
    destruct (Pos.eq_dec p 500) as [->|H500]; [reflexivity|].
    destruct (Pos.eq_dec p 200) as [->|H200].
    { destruct b; [|discriminate Hb]. rewrite He in Hb.
      rewrite Bool.andb_false_r in Hb. simpl in Hb.
      discriminate Hb. }
    exfalso. clear - Hb H200 H500.
    repeat (destruct p as [p|p|]; try discriminate Hb; try congruence).
Qed.

(** C8 as stated fails: the 400 of the webhook carries neither [success]
    nor [message], and the 200 for a duplicate carries no [success]. *)
Lemma webhook_bodies_without_success :
  let refused :=
    webhook.handler samples.calm
      (samples.post (VObj [("client_id", VNum 1); ("foo", VNum 1);
                           ("bar", VNum 2)])) empty_store in
  let repeated :=
    webhook.handler samples.calm (samples.post samples.paid)
      samples.delivered_once in
  fst refused = Returned (webhook.missing_response ["amount"]) /\
  code (webhook.missing_response ["amount"]) = 400 /\
  has_key (json (webhook.missing_response ["amount"])) "success" = false /\
  has_key (json (webhook.missing_response ["amount"])) "message" = false /\
  (exists r, fst repeated = Returned r /\ code r = 200 /\
             has_key (json r) "success" = false).
Proof.
  repeat split. eexists. repeat split.
Qed.

Lemma response_bodies_witness :
  exists r,
    fst (webhook.handler samples.calm
           (samples.post (VObj [("client_id", VNum 1); ("foo", VNum 1);
                                ("bar", VNum 2)])) empty_store)
    = Returned r /\
    (code r = 400 \/ code r = 500).
Proof.
  destruct (response_bodies txid_of samples.calm
              (samples.post (VObj [("client_id", VNum 1); ("foo", VNum 1);
                                   ("bar", VNum 2)]))
              (api.mkQuery VUndefined VUndefined) empty_store)
    as ((r & Hr & _ & _ & He) & _).
  exists r. split; [exact Hr|]. apply He.
  assert (Heq : Returned r = Returned (webhook.missing_response ["amount"]))
    by (rewrite <- Hr; reflexivity).
  injection Heq as ->. reflexivity.
Defined.

(* ================================================================== *)
(** * What a processed payment leaves behind *)
(* ================================================================== *)

(** A processed payment ends in one of the five endings, and the ending
    fixes the answer, the row added and the events noted. *)
Lemma processed_ending (e : env) (req : request) (s : store)
    (paymentData : value) :
  find (has_txid (get paymentData "transaction_id")) (payments s) = None ->
  let out := try_catch (webhook.post_and_finalize e paymentData)
               (fun error => ret (webhook.internal_error_response error))
               (inserted e req paymentData s) in
  exists x,
    ending_of e paymentData x /\
    fst out = Returned (ending_response e paymentData x) /\
    payments (snd out) = (payments s ++ [ending_row e paymentData x])%list /\
    webhook_log (snd out) = (webhook_log s ++ [entry_of req])%list /\
    history (snd out)
    = (history s ++ arrival e req paymentData
         ++ ending_events paymentData x)%list.
Proof.
  intros Hfind out. subst out.
  destruct (finalization_total e paymentData (inserted e req paymentData s))
    as [resp txid Hu Hs | resp m txid Hu Hs Hf | resp m m' txid Hu Hs Hf
       | m txid Hu Hf | m m' txid Hu Hf]; subst txid.
  - exists (Posted resp). split; [split; assumption|].
    split; [reflexivity|].
    unfold marked. cbn [snd payments webhook_log history note with_payments].
    rewrite inserted_payments, inserted_history.
    rewrite (update_appended e paymentData Success (JsonText resp) None
               (payments s) Hfind).
    repeat split. now rewrite <- !app_assoc.
  - exists (PostedUnmarked resp m). split; [repeat split; assumption|].
    split; [reflexivity|].
    unfold marked, unmarked.
    cbn [snd payments webhook_log history note with_payments].
    rewrite inserted_payments, inserted_history.
    rewrite (update_appended e paymentData Failed NoPayload (Some m)
               (payments s) Hfind).
    repeat split. now rewrite <- !app_assoc.
  - exists (PostedLost resp m m'). split; [repeat split; assumption|].
    split; [reflexivity|].
    unfold unmarked.
    cbn [snd payments webhook_log history note with_payments].
    rewrite inserted_payments, inserted_history.
    repeat split. now rewrite <- !app_assoc.
  - exists (Rejected m). split; [split; assumption|].
    split; [reflexivity|].
    unfold marked. cbn [snd payments webhook_log history note with_payments].
    rewrite inserted_payments, inserted_history.
    rewrite (update_appended e paymentData Failed NoPayload (Some m)
               (payments s) Hfind).
    repeat split. now rewrite <- !app_assoc.
  - exists (RejectedLost m m'). split; [split; assumption|].
    split; [reflexivity|].
    unfold unmarked.
    cbn [snd payments webhook_log history note with_payments].
    rewrite inserted_payments, inserted_history.
    repeat split. now rewrite <- !app_assoc.
Qed.

(** A request is either not processed, and then it leaves the payments
    alone and notes gateway calls only, or processed to one of the five
    endings. *)
Lemma handler_effects (e : env) (req : request) (s : store) :
  let out := webhook.handler e req s in
  (payments (snd out) = payments s /\
   (exists new,
       history (snd out) = (history s ++ new)%list /\
       forallb is_gateway new = true) /\
   (exists r, fst out = Returned r /\ unprocessed_response r)) \/
  (exists paymentData x,
      accepted e (body req) = Some paymentData /\
      find (has_txid (get paymentData "transaction_id")) (payments s)
      = None /\
      ending_of e paymentData x /\
      fst out = Returned (ending_response e paymentData x) /\
      payments (snd out)
      = (payments s ++ [ending_row e paymentData x])%list /\
      history (snd out)
      = (history s ++ arrival e req paymentData
           ++ ending_events paymentData x)%list).
Proof.
  intro out. subst out.
  destruct (handler_run e req s)
    as [m Hlog | m Hlog Hx | x r Hlog Hx Hacc Hr | pd m Hlog Hacc Hget
       | pd existing Hlog Hacc Hget Hfind | pd m Hlog Hacc Hget Hfind Hins
       | pd Hlog Hacc Hget Hfind Hins].
  - left. split; [reflexivity|]. split.
    + exists [Gateway (LogWebhook (entry_of req)) false]. now split.
    + eexists. split; [reflexivity | constructor].
  - left. split; [reflexivity|]. split.
    + exists [Gateway (LogWebhook (entry_of req)) true]. now split.
    + eexists. split; [reflexivity | constructor].
  - left. split; [reflexivity|]. split.
    + exists [Gateway (LogWebhook (entry_of req)) true]. now split.
    + exists r. split; [reflexivity|].
      destruct Hr as [-> | [-> | ->]]; constructor.
  - left. split; [reflexivity|]. split.
    + exists [Gateway (LogWebhook (entry_of req)) true;
              Gateway (GetPaymentByTransactionId (get pd "transaction_id"))
                false].
      split; [|reflexivity].
      unfold logged. cbn [snd history note append_log].
      now rewrite <- app_assoc.
    + eexists. split; [reflexivity | constructor].
  - left. split; [reflexivity|]. split.
    + exists [Gateway (LogWebhook (entry_of req)) true;
              Gateway (GetPaymentByTransactionId (get pd "transaction_id"))
                true].
      split; [|reflexivity].
      unfold logged. cbn [snd history note append_log].
      now rewrite <- app_assoc.
    + eexists. split; [reflexivity | constructor].
  - left. split; [reflexivity|]. split.
    + exists [Gateway (LogWebhook (entry_of req)) true;
              Gateway (GetPaymentByTransactionId (get pd "transaction_id"))
                true;
              Gateway (InsertPayment (webhook.paymentRecord_of e pd)) false].
      split; [|reflexivity].
      unfold logged. cbn [snd history note append_log].
      now rewrite <- !app_assoc.
    + eexists. split; [reflexivity | constructor].
  - right. destruct (processed_ending e req s pd Hfind)
      as (x & Hx & Hr & Hp & _ & Hh).
    exists pd, x. repeat split; assumption.
Qed.

(** X1.  Whatever becomes of the request, the webhook log gains exactly
    the entry of the request when the storage takes it, and nothing when
    the storage refuses it; no entry that was there is changed or
    removed. *)
Theorem webhook_log_gains_the_request (e : env) (req : request) (s : store) :
  webhook_log (snd (webhook.handler e req s))
  = match storage_fault e (LogWebhook (entry_of req)) with
    | None => (webhook_log s ++ [entry_of req])%list
    | Some _ => webhook_log s
    end.
Proof.
  destruct (handler_run e req s)
    as [m Hlog | m Hlog Hx | x r Hlog Hx Hacc Hr | pd m Hlog Hacc Hget
       | pd existing Hlog Hacc Hget Hfind | pd m Hlog Hacc Hget Hfind Hins
       | pd Hlog Hacc Hget Hfind Hins];
    rewrite Hlog; try reflexivity.
  now destruct (processed_ending e req s pd Hfind) as (x & _ & _ & _ & Hw & _).
Qed.

(** X2.  A request never changes or removes a stored payment: the table
    it leaves is the table it found, or that table with one row added at
    the end, for the accepted payload, whose transaction id was not
    stored. *)
Theorem stored_payments_are_kept (e : env) (req : request) (s : store) :
  let out := webhook.handler e req s in
  payments (snd out) = payments s \/
  exists paymentData st response error,
    accepted e (body req) = Some paymentData /\
    find (has_txid (get paymentData "transaction_id")) (payments s) = None /\
    payments (snd out)
    = (payments s
         ++ [mkPayment (webhook.paymentRecord_of e paymentData)
               st response error])%list.
Proof.
  intro out. subst out.
  destruct (handler_effects e req s)
    as [(Hp & _) | (pd & x & Hacc & Hfind & _ & _ & Hp & _)];
    [now left | right].
  exists pd. destruct x; do 3 eexists; repeat split; eassumption.
Qed.

Lemma unprocessed_is_not_posted (e : env) (r : response) (txid resp : value) :
  unprocessed_response r -> r <> webhook.posted_response e txid resp.
Proof.
  intros [m | | | missing | t existing] H; discriminate H.
Qed.

Lemma gateway_calls_hold_no_sync (new : list event) (c : option Z) :
  forallb is_gateway new = true -> ~ In (ClientSync c) new.
Proof.
  intros H Hin. rewrite forallb_forall in H.
  specialize (H _ Hin). discriminate H.
Qed.

Lemma longer_is_different {A} (l : list A) (a : A) : l <> (l ++ [a])%list.
Proof.
  intro H. apply (f_equal (@List.length A)) in H.
  rewrite length_app in H. simpl in H. lia.
Qed.



(* ================================================================== *)
(** * What is posted and what is stored *)
(* ================================================================== *)

Lemma nothing_missing (paymentData : value) :
  webhook.missingFields paymentData = [] ->
  truthy (get paymentData "client_id") = true /\
  truthy (get paymentData "amount") = true.
Proof.
  unfold webhook.missingFields, webhook.requiredFields. cbn [filter].
  destruct (truthy (get paymentData "client_id"));
    destruct (truthy (get paymentData "amount")); cbn [negb];
    intro H; try discriminate H; auto.
Qed.

Lemma with_transaction_id_keeps (e : env) (fields : list (string * value))
    (k : string) :
  k <> "transaction_id" ->
  get (webhook.with_transaction_id e (VObj fields)) k = lookup k fields.
Proof.
  intro Hk. unfold webhook.with_transaction_id.
  destruct (negb (truthy (get (VObj fields) "transaction_id")));
    [|reflexivity].
  cbn [set get]. now apply lookup_assign_other.
Qed.

Lemma with_transaction_id_truthy (e : env) (fields : list (string * value)) :
  truthy (get (webhook.with_transaction_id e (VObj fields)) "transaction_id")
  = true.
Proof.
  unfold webhook.with_transaction_id.
  destruct (truthy (get (VObj fields) "transaction_id")) eqn:Ht;
    cbn [negb]; [exact Ht|].
  cbn [set get]. rewrite lookup_assign_same. reflexivity.
Qed.

(** An accepted payload is an object with a truthy [client_id], [amount]
    and [transaction_id]. *)
Lemma accepted_is_complete (e : env) (b paymentData : value) :
  accepted e b = Some paymentData ->
  (exists fields, paymentData = VObj fields) /\
  truthy (get paymentData "client_id") = true /\
  truthy (get paymentData "amount") = true /\
  truthy (get paymentData "transaction_id") = true.
Proof.
  intro Hacc. destruct (accepted_inv e b paymentData Hacc)
    as (x & _ & _ & Hm & ->).
  destruct (nothing_missing _ Hm) as [Hc Ha].
  destruct (webhook.alias_customer_id x) as [| | | | | |fields];
    try discriminate Hc.
  split.
  - unfold webhook.with_transaction_id.
    destruct (negb (truthy (get (VObj fields) "transaction_id")));
      cbn [set]; eauto.
  - rewrite !with_transaction_id_keeps by discriminate.
    repeat split; [exact Hc | exact Ha |].
    apply with_transaction_id_truthy.
Qed.

(** A post made by a request posts the accepted payload of the request. *)
Lemma posted_is_accepted (e : env) (req : request) (s : store)
    (new : list event) (paymentData : value) (returned : bool) :
  history (snd (webhook.handler e req s)) = (history s ++ new)%list ->
  In (UispPost paymentData returned) new ->
  accepted e (body req) = Some paymentData.
Proof.
  intros Hh Hin.
  destruct (handler_effects e req s)
    as [(_ & (new' & Hh' & Hnew) & _)
       | (pd & x & Hacc & _ & _ & _ & _ & Hh')];
    rewrite Hh' in Hh; apply app_inv_head in Hh; subst new.
  - exfalso. rewrite forallb_forall in Hnew.
    specialize (Hnew _ Hin). discriminate Hnew.
  - assert (paymentData = pd) as ->; [|exact Hacc].
    apply in_app_or in Hin. destruct Hin as [Hin | Hin].
    + cbn in Hin. intuition discriminate.
    + destruct x; cbn in Hin;
        repeat (destruct Hin as [Hin | Hin];
                [try discriminate Hin; now injection Hin |]);
        destruct Hin.
Qed.

(** X4.  Every payment a request posts to UISP is the accepted payload
    of that request: an object whose [client_id], [amount] and
    [transaction_id] are all truthy.  UISP is never handed an empty
    body, a probe or a payment without a client or an amount. *)
Theorem posted_payloads_are_complete (e : env) (req : request) (s : store)
    (new : list event) (paymentData : value) (returned : bool) :
  history (snd (webhook.handler e req s)) = (history s ++ new)%list ->
  In (UispPost paymentData returned) new ->
  accepted e (body req) = Some paymentData /\
  (exists fields, paymentData = VObj fields) /\
  truthy (get paymentData "client_id") = true /\
  truthy (get paymentData "amount") = true /\
  truthy (get paymentData "transaction_id") = true.
Proof.
  intros Hh Hin.
  pose proof (posted_is_accepted e req s new paymentData returned Hh Hin)
    as Hacc.
  split; [exact Hacc|]. exact (accepted_is_complete e _ paymentData Hacc).
Qed.

Lemma posted_payloads_are_complete_witness :
  truthy (get (webhook.with_transaction_id samples.calm samples.sale)
            "transaction_id") = true.
Proof.
  destruct (posted_payloads_are_complete samples.calm
              (samples.post samples.sale) empty_store
              (arrival samples.calm (samples.post samples.sale)
                 (webhook.with_transaction_id samples.calm samples.sale)
               ++ ending_events
                    (webhook.with_transaction_id samples.calm samples.sale)
                    (Posted (VObj [("id", VNum 9001)])))%list
              (webhook.with_transaction_id samples.calm samples.sale) true)
    as (_ & _ & _ & _ & H).
  - reflexivity.
  - cbn. auto.
  - exact H.
Defined.

(** X5.  The row a request adds holds the accepted payload's own
    [transaction_id], [client_id] and [amount], all truthy, and a truthy
    [currency_code]: the payload's when that is truthy and ["KES"]
    otherwise; its [payment_method] falls back to the payload's
    [payment_type]. *)
Theorem stored_record_is_complete (e : env) (req : request) (s : store)
    (row : payment) :
  payments (snd (webhook.handler e req s)) = (payments s ++ [row])%list ->
  exists paymentData,
    accepted e (body req) = Some paymentData /\
    transaction_id (record row) = get paymentData "transaction_id" /\
    client_id (record row) = get paymentData "client_id" /\
    amount (record row) = get paymentData "amount" /\
    truthy (transaction_id (record row)) = true /\
    truthy (client_id (record row)) = true /\
    truthy (amount (record row)) = true /\
    truthy (currency_code (record row)) = true /\
    (truthy (get paymentData "currency_code") = true ->
     currency_code (record row) = get paymentData "currency_code") /\
    (truthy (get paymentData "currency_code") = false ->
     currency_code (record row) = VStr "KES") /\
    (truthy (get paymentData "payment_method") = false ->
     payment_method (record row) = get paymentData "payment_type").
Proof.
  intro Hrow.
  destruct (handler_effects e req s)
    as [(Hp & _) | (pd & x & Hacc & _ & _ & _ & Hp & _)];
    rewrite Hp in Hrow.
  - exfalso. exact (longer_is_different _ _ Hrow).
  - apply app_inv_head in Hrow. injection Hrow as <-.
    destruct (accepted_is_complete e _ pd Hacc) as (_ & Hc & Ha & Ht).
    exists pd. split; [exact Hacc|].
    assert (Hrec : record (ending_row e pd x) = webhook.paymentRecord_of e pd)
      by (destruct x; reflexivity).
    rewrite Hrec. cbn [webhook.paymentRecord_of transaction_id client_id
                       amount currency_code payment_method].
    unfold or_else.
    repeat split; try assumption.
    + destruct (truthy (get pd "currency_code")) eqn:Hcur;
        [exact Hcur | reflexivity].
    + intros ->. reflexivity.
    + intros ->. reflexivity.
    + intros ->. reflexivity.
Qed.

Lemma stored_record_is_complete_witness :
  exists paymentData,
    accepted samples.calm (body (samples.post samples.sale))
    = Some paymentData /\
    get paymentData "transaction_id" = VStr "SPLYNX-1700000000005-1".
Proof.
  destruct (stored_record_is_complete samples.calm
              (samples.post samples.sale) empty_store
              (mkPayment
                 (webhook.paymentRecord_of samples.calm
                    (webhook.with_transaction_id samples.calm samples.sale))
                 Success (JsonText (VObj [("id", VNum 9001)])) None))
    as (pd & Hacc & Ht & _); [reflexivity|].
  exists pd. split; [exact Hacc|]. rewrite <- Ht. reflexivity.
Defined.

Lemma alias_with_client_id (paymentData : value) :
  truthy (get paymentData "client_id") = true ->
  webhook.alias_customer_id paymentData = paymentData.
Proof.
  intro H. unfold webhook.alias_customer_id. rewrite H.
  now rewrite Bool.andb_false_r.
Qed.

(** A payload that has its three fields is accepted as it is. *)
Lemma complete_is_accepted (e : env) (b x : value) :
  webhook.extract_paymentData b = Returned x ->
  truthy (get x "client_id") = true ->
  truthy (get x "amount") = true ->
  truthy (get x "transaction_id") = true ->
  accepted e b = Some x.
Proof.
  intros Hx Hc Ha Ht. unfold accepted. rewrite Hx.
  rewrite (alias_with_client_id x Hc).
  assert (Hm : webhook.missingFields x = []).
  { unfold webhook.missingFields, webhook.requiredFields. cbn [filter].
    now rewrite Hc, Ha. }
  destruct (webhook.is_ping x) eqn:Hp.
  { pose proof (ping_misses_fields x Hp) as Hq.
    rewrite (alias_with_client_id x Hc), Hm in Hq. discriminate Hq. }
  rewrite Hm. cbn [List.length Nat.ltb Nat.leb].
  unfold webhook.with_transaction_id. now rewrite Ht.
Qed.

(** X6.  A payload that comes with a truthy [client_id], [amount] and
    [transaction_id] is posted to UISP exactly as it was extracted:
    nothing is aliased into it, its transaction id is the provider's and
    no clock reading enters it. *)
Theorem complete_payload_is_posted_as_is (e : env) (req : request)
    (s : store) (extracted : value) (new : list event)
    (paymentData : value) (returned : bool) :
  webhook.extract_paymentData (body req) = Returned extracted ->
  truthy (get extracted "client_id") = true ->
  truthy (get extracted "amount") = true ->
  truthy (get extracted "transaction_id") = true ->
  history (snd (webhook.handler e req s)) = (history s ++ new)%list ->
  In (UispPost paymentData returned) new ->
  paymentData = extracted.
Proof.
  intros Hx Hc Ha Ht Hh Hin.
  pose proof (posted_is_accepted e req s new paymentData returned Hh Hin)
    as Hacc.
  rewrite (complete_is_accepted e (body req) extracted Hx Hc Ha Ht) in Hacc.
  now injection Hacc.
Qed.

Lemma complete_payload_is_posted_as_is_witness :
  webhook.with_transaction_id samples.calm samples.paid = samples.paid.
Proof.
  apply (complete_payload_is_posted_as_is samples.calm
           (samples.post samples.paid) empty_store samples.paid
           (arrival samples.calm (samples.post samples.paid) samples.paid
            ++ ending_events samples.paid
                 (Posted (VObj [("id", VNum 9001)])))%list
           (webhook.with_transaction_id samples.calm samples.paid) true);
    try reflexivity.
  cbn. auto.
Defined.

(* ================================================================== *)
(** * Two deliveries *)
(* ================================================================== *)

Lemma handler_duplicate (e : env) (req : request) (s : store)
    (paymentData : value) (existing : payment) :
  storage_fault e (LogWebhook (entry_of req)) = None ->
  accepted e (body req) = Some paymentData ->
  storage_fault e
    (GetPaymentByTransactionId (get paymentData "transaction_id")) = None ->
  find (has_txid (get paymentData "transaction_id")) (payments s)
  = Some existing ->
  webhook.handler e req s
  = (Returned (webhook.duplicate_response
                 (get paymentData "transaction_id") existing),
     note (Gateway (GetPaymentByTransactionId
                      (get paymentData "transaction_id")) true)
       (logged req s)).
Proof.
  intros Hlog Hacc Hget Hfind.
  rewrite (handler_accepted e req s paymentData Hlog Hacc).
  unfold webhook.process, try_catch, bind,
    dbHelpers.getPaymentByTransactionId, dbHelpers.call.
  rewrite Hget. cbn [payments logged note append_log]. rewrite Hfind.
  reflexivity.
Qed.

Lemma find_appended (txid : value) (rows : list payment) (row : payment) :
  find (has_txid txid) rows = None ->
  find (has_txid txid) (rows ++ [row])
  = if has_txid txid row then Some row else None.
Proof.
  induction rows as [|p rows IH]; simpl; [reflexivity|].
  destruct (has_txid txid p); [discriminate | exact IH].
Qed.

Lemma ending_row_has_txid (e : env) (paymentData : value) (x : ending) :
  has_txid (get paymentData "transaction_id") (ending_row e paymentData x)
  = true.
Proof.
  unfold has_txid, txid_of.
  assert (Hrec : record (ending_row e paymentData x)
                 = webhook.paymentRecord_of e paymentData)
    by (destruct x; reflexivity).
  rewrite Hrec. cbn [webhook.paymentRecord_of transaction_id].
  destruct (value_eq_dec (get paymentData "transaction_id")
              (get paymentData "transaction_id")); [reflexivity | congruence].
Qed.

Lemma posted_ids_ending (e : env) (req : request) (paymentData : value)
    (x : ending) :
  posted_ids (arrival e req paymentData ++ ending_events paymentData x)
  = [get paymentData "transaction_id"].
Proof. destruct x; reflexivity. Qed.

Lemma posted_ids_processed (h : list event) (e : env) (req : request)
    (paymentData : value) (x : ending) :
  posted_ids (h ++ arrival e req paymentData ++ ending_events paymentData x)
  = (posted_ids h ++ [get paymentData "transaction_id"])%list.
Proof. now rewrite posted_ids_app, posted_ids_ending. Qed.



Lemma alias_keeps_transaction_id (paymentData : value) :
  get (webhook.alias_customer_id paymentData) "transaction_id"
  = get paymentData "transaction_id".
Proof.
  unfold webhook.alias_customer_id.
  destruct (truthy (get paymentData "customer_id")
            && negb (truthy (get paymentData "client_id"))); [|reflexivity].
  destruct paymentData; try reflexivity.
  cbn [set get]. apply lookup_assign_other. discriminate.
Qed.

Lemma ending_row_txid (e : env) (paymentData : value) (x : ending) :
  txid_of (ending_row e paymentData x) = get paymentData "transaction_id".
Proof. destruct x; reflexivity. Qed.

(** The id an accepted payload gets when it brings none. *)
Lemma accepted_without_id (e : env) (b x paymentData : value) :
  webhook.extract_paymentData b = Returned x ->
  truthy (get x "transaction_id") = false ->
  accepted e b = Some paymentData ->
  get paymentData "transaction_id"
  = VStr (webhook.synthesized_id (txid_time e)
            (get (webhook.alias_customer_id x) "client_id")).
Proof.
  intros Hx Ht Hacc.
  destruct (accepted_inv e b paymentData Hacc) as (x' & Hx' & _ & Hm & ->).
  assert (x' = x) by congruence. subst x'.
  destruct (nothing_missing _ Hm) as [Hc _].
  rewrite <- alias_keeps_transaction_id in Ht.
  destruct (webhook.alias_customer_id x) as [| | | | | |fields];
    try discriminate Hc.
  exact (with_transaction_id_new e fields Ht).
Qed.



(* ================================================================== *)
(** * A body that is not there *)
(* ================================================================== *)

(** X9.  When the request body is [null] or [undefined] the extraction
    throws, and the outer catch answers the 500 with the message of the
    TypeError; by then the webhook log has taken the request, and nothing
    else is touched. *)
Theorem absent_body_is_logged_and_refused (e : env) (req : request)
    (s : store) :
  storage_fault e (LogWebhook (entry_of req)) = None ->
  body req = VNull \/ body req = VUndefined ->
  let out := webhook.handler e req s in
  (exists message,
      member (body req) "data" = Thrown message /\
      fst out = Returned (webhook.internal_error_response message) /\
      code (webhook.internal_error_response message) = 500) /\
  snd out = logged req s.
Proof.
  intros Hlog Hb out. subst out. rewrite (handler_logged e req s Hlog).
  unfold try_catch, bind, lift, webhook.extract_paymentData.
  destruct Hb as [-> | ->]; cbn; (split; [|reflexivity]);
    eexists; repeat split.
Qed.

Lemma absent_body_is_logged_and_refused_witness :
  fst (webhook.handler samples.calm (samples.post VNull) empty_store)
  = Returned
      (webhook.internal_error_response
         "Cannot read properties of null (reading 'data')").
Proof.
  destruct (absent_body_is_logged_and_refused samples.calm
              (samples.post VNull) empty_store)
    as ((message & Hm & Hr & _) & _); [reflexivity | now left |].
  rewrite Hr. cbn in Hm. now injection Hm as <-.
Defined.

(* ================================================================== *)
(** * The client the resync is started for *)
(* ================================================================== *)

Lemma read_digits_from (d : Decimal.uint) (acc : positive) :
  read_digits 10 (Some (Z.pos acc)) (NilEmpty.string_of_uint d)
  = Some (Z.pos (Pos.of_uint_acc d acc)).
Proof.
  revert acc. induction d; intro acc; cbn [NilEmpty.string_of_uint];
    [reflexivity | ..];
    cbn [read_digits];
    match goal with
    | |- context [digit_value ?c] =>
        let v := eval vm_compute in (digit_value c) in
        change (digit_value c) with v
    end;
    cbv iota beta;
    match goal with
    | |- context [(?k <? 10)] => change (k <? 10) with true
    end;
    cbv iota; cbn [Pos.of_uint_acc]; rewrite <- IHd; f_equal; f_equal; lia.
Qed.

Lemma read_digits_uint (d : Decimal.uint) :
  read_digits 10 (Some 0) (NilEmpty.string_of_uint d)
  = Some (Z.of_N (Pos.of_uint d)).
Proof.
  induction d; cbn [NilEmpty.string_of_uint]; [reflexivity | ..];
    cbn [read_digits];
    match goal with
    | |- context [digit_value ?c] =>
        let v := eval vm_compute in (digit_value c) in
        change (digit_value c) with v
    end;
    cbv iota beta;
    match goal with
    | |- context [(?k <? 10)] => change (k <? 10) with true
    end;
    cbv iota; cbn [Pos.of_uint Z.mul Z.add Z.of_N];
    [exact IHd | apply read_digits_from ..].
Qed.

Lemma read_digits_start (d : Decimal.uint) :
  d <> Decimal.Nil ->
  read_digits 10 None (NilEmpty.string_of_uint d)
  = read_digits 10 (Some 0) (NilEmpty.string_of_uint d).
Proof. destruct d; [congruence | reflexivity ..]. Qed.

(** On a run of decimal digits [parseInt] reads the digits, and a
    leading minus sign negates what it reads. *)
Lemma parseInt_uint (d : Decimal.uint) :
  d <> Decimal.Nil ->
  parseInt (NilEmpty.string_of_uint d)
  = read_digits 10 None (NilEmpty.string_of_uint d) /\
  parseInt (String "-" (NilEmpty.string_of_uint d))
  = option_map Z.opp (read_digits 10 None (NilEmpty.string_of_uint d)).
Proof.
  intro Hd. unfold parseInt.
  destruct d as [|d|d|d|d|d|d|d|d|d|d]; [congruence | ..];
    destruct d; cbn [NilEmpty.string_of_uint];
    cbn [skip_white_space]; cbv [is_white_space];
    repeat match goal with
    | |- context [nat_of_ascii ?c] =>
        let v := eval vm_compute in (nat_of_ascii c) in
        change (nat_of_ascii c) with v
    end;
    cbv iota beta;
    match goal with
    | |- context [read_digits ?r ?a ?t] => destruct (read_digits r a t)
    end; split; reflexivity.
Qed.

(** [parseInt] reads back the integer that was rendered. *)
Lemma parseInt_number_to_string (n : Z) :
  parseInt (number_to_string n) = Some n.
Proof.
  unfold number_to_string. destruct n as [|p|p]; [reflexivity | |];
    cbn [Z.to_int NilZero.string_of_int];
    pose proof (DecimalPos.Unsigned.to_uint_nonnil p) as Hnil;
    assert (Hs : NilZero.string_of_uint (Pos.to_uint p)
                 = NilEmpty.string_of_uint (Pos.to_uint p))
      by (destruct (Pos.to_uint p); [congruence | reflexivity ..]);
    rewrite Hs;
    destruct (parseInt_uint (Pos.to_uint p) Hnil) as [Hplus Hminus];
    rewrite ?Hplus, ?Hminus, (read_digits_start _ Hnil), read_digits_uint,
      DecimalPos.Unsigned.of_to; reflexivity.
Qed.



(* ================================================================== *)
(** * Fetching one payment *)
(* ================================================================== *)

Lemma get_payment_run (row_json : payment -> value) (e : env)
    (transactionId : string) (s : store) :
  storage_fault e (GetPaymentByTransactionId (VStr transactionId)) = None ->
  api.get_payment row_json e transactionId s
  = (Returned
       match find (has_txid (VStr transactionId)) (payments s) with
       | Some p => api.found_response row_json p
       | None => api.not_found_response
       end,
     note (Gateway (GetPaymentByTransactionId (VStr transactionId)) true) s).
Proof.
  intro Hup. unfold api.get_payment, try_catch, bind,
    dbHelpers.getPaymentByTransactionId, dbHelpers.call.
  rewrite Hup.
  destruct (find (has_txid (VStr transactionId)) (payments s)); reflexivity.
Qed.

Lemma find_stored (txid : value) (rows : list payment) :
  In txid (map txid_of rows) ->
  exists p, find (has_txid txid) rows = Some p /\
            In p rows /\ txid_of p = txid.
Proof.
  induction rows as [|p rows IH]; simpl; [tauto|].
  unfold has_txid at 1.
  destruct (value_eq_dec (txid_of p) txid) as [Heq | Hne].
  - intros _. exists p. auto.
  - intros [Hp | Hin]; [contradiction|].
    destruct (IH Hin) as (q & Hq & Hr & Ht). exists q. auto.
Qed.

Lemma find_not_stored (txid : value) (rows : list payment) :
  ~ In txid (map txid_of rows) -> find (has_txid txid) rows = None.
Proof.
  induction rows as [|p rows IH]; simpl; [reflexivity|].
  unfold has_txid at 1.
  destruct (value_eq_dec (txid_of p) txid) as [Heq | Hne]; intro H.
  - exfalso. apply H. now left.
  - apply IH. intro Hin. apply H. now right.
Qed.

(** X11.  [GET /api/payments/:transactionId], with the storage up,
    answers 200 with a stored row of that id when the id is stored, and
    the 404 [Payment not found], which carries no [message], when it is
    not; the request writes no payment and no webhook log entry. *)
Theorem get_payment_finds_what_is_stored (row_json : payment -> value)
    (e : env) (transactionId : string) (s : store) :
  storage_fault e (GetPaymentByTransactionId (VStr transactionId)) = None ->
  let out := api.get_payment row_json e transactionId s in
  (In (VStr transactionId) (stored_ids s) ->
   exists p,
     In p (payments s) /\ txid_of p = VStr transactionId /\
     fst out = Returned (api.found_response row_json p) /\
     code (api.found_response row_json p) = 200 /\
     get (json (api.found_response row_json p)) "data" = row_json p) /\
  (~ In (VStr transactionId) (stored_ids s) ->
   fst out = Returned api.not_found_response /\
   code api.not_found_response = 404 /\
   get (json api.not_found_response) "success" = VBool false /\
   has_key (json api.not_found_response) "message" = false) /\
  payments (snd out) = payments s /\
  webhook_log (snd out) = webhook_log s.
Proof.
  intros Hup out. subst out.
  rewrite (get_payment_run row_json e transactionId s Hup).
  cbn [fst snd payments webhook_log note]. split; [|split].
  - intro Hin. destruct (find_stored _ _ Hin) as (p & Hf & Hp & Ht).
    exists p. rewrite Hf. repeat split; assumption.
  - intro Hnot. rewrite (find_not_stored _ _ Hnot). repeat split.
  - split; reflexivity.
Qed.

Lemma get_payment_finds_what_is_stored_witness :
  fst (api.get_payment txid_of samples.calm "TX-2" samples.delivered_once)
  = Returned api.not_found_response.
Proof.
  destruct (get_payment_finds_what_is_stored txid_of samples.calm "TX-2"
              samples.delivered_once)
    as (_ & H & _); [reflexivity|].
  apply H. cbn. intros [H1 | []]. discriminate H1.
Defined.



(* ================================================================== *)
(** * Listing clients *)
(* ================================================================== *)



Lemma filter_of_unset (v : value) :
  api.clients.filter_of v = None <-> v = VUndefined.
Proof. destruct v; simpl; split; congruence. Qed.

Lemma filter_of_true (v : value) :
  api.clients.filter_of v = Some true <-> v = VStr "true" \/ v = VStr "1".
Proof.
  destruct v as [| | b | n | s | items | fields]; cbn;
    try (split; [discriminate | intros [H | H]; discriminate H]).
  unfold api.clients.flag, api.clients.is_literal. split.
  - intros [= H]. apply Bool.orb_true_iff in H.
    destruct H as [H | H]; apply String.eqb_eq in H; subst; auto.
  - intros [[= ->] | [= ->]]; reflexivity.
Qed.



(* ================================================================== *)
(** * What holds of the table after any deliveries *)
(* ================================================================== *)

Lemma ending_row_complete (e : env) (b paymentData : value) (x : ending) :
  accepted e b = Some paymentData ->
  complete_row (ending_row e paymentData x) = true.
Proof.
  intro Hacc.
  destruct (accepted_is_complete e b paymentData Hacc) as (_ & Hc & Ha & Ht).
  unfold complete_row.
  assert (Hrec : record (ending_row e paymentData x)
                 = webhook.paymentRecord_of e paymentData)
    by (destruct x; reflexivity).
  rewrite Hrec. cbn [webhook.paymentRecord_of transaction_id client_id
                     amount currency_code].
  rewrite Ht, Hc, Ha. unfold or_else.
  destruct (truthy (get paymentData "currency_code")) eqn:Hcur;
    [now rewrite Hcur | reflexivity].
Qed.

Lemma deliveries_keep (P : payment -> bool) :
  (forall e req s,
      payments (snd (webhook.handler e req s)) = payments s \/
      exists row,
        P row = true /\
        payments (snd (webhook.handler e req s))
        = (payments s ++ [row])%list) ->
  forall ds s,
    forallb P (payments s) = true ->
    forallb P (payments (deliveries ds s)) = true.
Proof.
  intros Hstep ds. induction ds as [|[e req] ds IH]; intros s Hs;
    [exact Hs|].
  apply IH. unfold deliver. cbn [fst snd].
  destruct (Hstep e req s) as [-> | (row & Hrow & ->)]; [exact Hs|].
  rewrite forallb_app, Hs. cbn. now rewrite Hrow.
Qed.

(** X15.  Over any sequence of deliveries, whatever the storage and UISP
    do, every row the webhook stores has a truthy [transaction_id],
    [client_id], [amount] and [currency_code]: no delivery can store a
    payment without a client, an amount or an id. *)
Theorem stored_rows_stay_complete (ds : list (env * request)) (s : store) :
  forallb complete_row (payments s) = true ->
  forallb complete_row (payments (deliveries ds s)) = true.
Proof.
  apply deliveries_keep. intros e req s'.
  destruct (handler_effects e req s')
    as [(Hp & _) | (pd & x & Hacc & _ & _ & _ & Hp & _)];
    [now left | right].
  exists (ending_row e pd x). split; [|exact Hp].
  exact (ending_row_complete e _ pd x Hacc).
Qed.

Lemma stored_rows_stay_complete_witness :
  forallb complete_row
    (payments
       (deliveries
          [(samples.calm, samples.post samples.sale);
           (samples.stuck, samples.post samples.paid);
           (samples.calm, samples.post (VObj [("amount", VNum 5)]))]
          empty_store))
  = true.
Proof.
  apply (stored_rows_stay_complete
           [(samples.calm, samples.post samples.sale);
            (samples.stuck, samples.post samples.paid);
            (samples.calm, samples.post (VObj [("amount", VNum 5)]))]
           empty_store).
  reflexivity.
Defined.

(** X16.  Over any sequence of deliveries, every row the webhook stores
    keeps its response and its error in step with its status: a pending
    row has neither, a success row has the response of UISP and no error,
    a failed row has an error message and no response. *)
Theorem stored_rows_stay_coherent (ds : list (env * request)) (s : store) :
  forallb coherent_row (payments s) = true ->
  forallb coherent_row (payments (deliveries ds s)) = true.
Proof.
  apply deliveries_keep. intros e req s'.
  destruct (handler_effects e req s')
    as [(Hp & _) | (pd & x & _ & _ & _ & _ & Hp & _)];
    [now left | right].
  exists (ending_row e pd x). split; [|exact Hp].
  destruct x; reflexivity.
Qed.

Lemma stored_rows_stay_coherent_witness :
  forallb coherent_row
    (payments
       (deliveries
          [(samples.calm, samples.post samples.sale);
           (samples.stuck, samples.post samples.paid);
           (samples.half_stuck, samples.post samples.cash_sale)]
          empty_store))
  = true.
Proof.
  apply (stored_rows_stay_coherent
           [(samples.calm, samples.post samples.sale);
            (samples.stuck, samples.post samples.paid);
            (samples.half_stuck, samples.post samples.cash_sale)]
           empty_store).
  reflexivity.
Defined.
